(** * Deposit and withdrawal alerts: the /event endpoint of app/routes.py

    The module under study keeps, per user, the list of the actions it has
    accepted, validates each incoming JSON payload against that list and
    answers with the alert codes the payload triggers.  The development
    below embeds [validate_payload] and [event] together with the part of
    the Python runtime they lean on (JSON values, [float], [isinstance],
    the ordering of numbers and strings, [sum]), and then states and proves
    the properties of the alert engine. *)

From Stdlib Require Import ZArith String Ascii List Floats.
From Stdlib Require QArith.
From stdpp Require Import gmap strings list.
Import ListNotations.

Open Scope Z_scope.

(** ** Values of a parsed JSON document

    [request.json] hands the handler what [json.loads] built: [None],
    [bool], [int] (unbounded), [float] (binary64; the literals [NaN],
    [Infinity] and [-Infinity] are accepted), [str], [list] and [dict].
    A [str] is read as its sequence of code points, each below 256. *)

#[warnings="-register-all"]
Inductive json :=
| JNull
| JBool (b : bool)
| JInt (n : Z)
| JFloat (f : float)
| JStr (s : string)
| JArr (l : list json)
| JObj (m : gmap string json).

(** ** Exceptions and results

    An exception that nobody catches leaves the handler; Flask turns it
    into a 500 answer. *)

Inductive exn := TypeError | ValueError | OverflowError | IndexError.

Inductive outcome (A : Type) :=
| Ret (a : A)
| Raise (e : exn).
Arguments Ret {A} a.
Arguments Raise {A} e.

#[global] Instance outcome_ret : MRet outcome := fun _ a => Ret a.
#[global] Instance outcome_bind : MBind outcome := fun _ _ k c =>
  match c with
  | Ret a => k a
  | Raise e => Raise e
  end.

(** ** The builtin [float]

    [float(x)] on an [int] rounds to the nearest binary64 number, ties to
    even, and raises [OverflowError] when the result is not finite; on a
    [str] it reads a decimal literal, [inf], [infinity] or [nan], and raises
    [ValueError] on anything else; on [None], a [list] or a [dict] it
    raises [TypeError]. *)

Module PyFloat.

Definition of_Z (n : Z) : float :=
  SF2Prim (binary_normalize prec emax n 0 false).

(** The binary64 number nearest to [m / d], with the sign [neg]. *)
Definition of_ratio (neg : bool) (m d : positive) : float :=
  SF2Prim (SFdiv prec emax (S754_finite neg m 0) (S754_finite false d 0)).

Definition signed_zero (neg : bool) : float := SF2Prim (S754_zero neg).
Definition signed_inf (neg : bool) : float := SF2Prim (S754_infinity neg).

(** [m * 10 ^ k], correctly rounded. *)
Definition of_decimal (neg : bool) (m : Z) (k : Z) : float :=
  match m with
  | Zpos p =>
      if 0 <=? k then of_Z ((if neg then - m else m) * 10 ^ k)
      else of_ratio neg p (Z.to_pos (10 ^ (- k)))
  | _ => signed_zero neg
  end.

Definition code (c : ascii) : N := N_of_ascii c.

Definition is_digit (c : ascii) : bool :=
  ((48 <=? code c) && (code c <=? 57))%N.

(** Tab, line feed, vertical tab, form feed, carriage return, space, and
    the two spaces of the upper half: next line and no-break space. *)
Definition is_space (c : ascii) : bool :=
  (((9 <=? code c) && (code c <=? 13)) || (code c =? 32)
   || (code c =? 133) || (code c =? 160))%N.

Definition lower (c : ascii) : ascii :=
  if ((65 <=? code c) && (code c <=? 90))%N
  then ascii_of_N (code c + 32) else c.

Definition underscore : ascii := "_"%char.

(** An underscore is allowed between two digits only; the literal is read
    with the underscores taken out. *)
Fixpoint drop_underscores (prev : option ascii) (s : list ascii)
  : option (list ascii) :=
  match s with
  | [] => Some []
  | c :: rest =>
      if Ascii.eqb c underscore then
        match prev, rest with
        | Some p, d :: _ =>
            if is_digit p && is_digit d
            then drop_underscores (Some c) rest else None
        | _, _ => None
        end
      else cons c <$> drop_underscores (Some c) rest
  end.

Fixpoint drop_spaces (s : list ascii) : list ascii :=
  match s with
  | c :: rest => if is_space c then drop_spaces rest else s
  | [] => []
  end.

Definition strip (s : list ascii) : list ascii :=
  rev (drop_spaces (rev (drop_spaces s))).

Fixpoint digits (s : list ascii) : list ascii * list ascii :=
  match s with
  | c :: rest =>
      if is_digit c then
        let '(ds, tl) := digits rest in (c :: ds, tl)
      else ([], s)
  | [] => ([], [])
  end.

Definition digits_value (ds : list ascii) : Z :=
  fold_left (fun acc c => 10 * acc + (Z.of_N (code c) - 48)) ds 0.

Definition sign (s : list ascii) : bool * list ascii :=
  match s with
  | c :: rest =>
      if Ascii.eqb c "-"%char then (true, rest)
      else if Ascii.eqb c "+"%char then (false, rest)
      else (false, s)
  | [] => (false, [])
  end.

(** The exponent part: nothing, or [e] or [E], an optional sign and at
    least one digit, up to the end of the literal. *)
Definition exponent (s : list ascii) : option Z :=
  match s with
  | [] => Some 0
  | c :: rest =>
      if Ascii.eqb (lower c) "e"%char then
        let '(neg, rest) := sign rest in
        match digits rest with
        | (d :: ds, []) =>
            Some (if neg then - digits_value (d :: ds)
                  else digits_value (d :: ds))
        | _ => None
        end
      else None
  end.

(** Digits with at most one point and at least one digit, then the
    exponent part. *)
Definition number (neg : bool) (s : list ascii) : option float :=
  let '(int_part, rest) := digits s in
  let '(frac_part, rest) :=
    match rest with
    | c :: rest' =>
        if Ascii.eqb c "."%char then digits rest' else ([], rest)
    | [] => ([], [])
    end in
  match int_part ++ frac_part with
  | [] => None
  | mantissa =>
      e ← exponent rest;
      Some (of_decimal neg (digits_value mantissa)
              (e - Z.of_nat (length frac_part)))
  end.

Definition of_list (s : list ascii) : option float :=
  s ← drop_underscores None s;
  let '(neg, body) := sign (strip s) in
  let word := string_of_list_ascii (map lower body) in
  if String.eqb word "inf" || String.eqb word "infinity"
  then Some (signed_inf neg)
  else if String.eqb word "nan" then Some nan
  else number neg body.

Definition of_string (s : string) : option float :=
  of_list (list_ascii_of_string s).

End PyFloat.

(** ** Values the handler keeps

    Only a payload that passed [validate_payload] is stored, and the rules
    read three of its entries back: ['type'], ['amount'] and ['time'].  A
    stored payload is therefore kept as the record of its four required
    entries, each with the Python type the validation found: the action
    type is one of the two accepted strings, the amount is a value that
    [float] takes (an [int], a [bool], a [float] or a [str]), and the user
    identifier and the time are instances of [int] ([bool] is a subclass
    of [int] in Python). *)

Inductive kind := Deposit | Withdraw.

#[global] Instance kind_eq_dec : EqDecision kind.
Proof. solve_decision. Defined.

Inductive amount :=
| AInt (n : Z)
| ABool (b : bool)
| AFloat (f : float)
| AStr (s : string).

Inductive pyint :=
| PInt (n : Z)
| PBool (b : bool).

(** The integer a Python [int] or [bool] stands for in arithmetic, in
    comparisons and as a dictionary key ([True == 1], [False == 0]). *)
Definition int_val (i : pyint) : Z :=
  match i with
  | PInt n => n
  | PBool b => Z.b2z b
  end.

Record action := {
  act_type : kind;
  act_amount : amount;
  act_user_id : pyint;
  act_time : pyint
}.

Definition time (a : action) : Z := int_val (act_time a).

(** [x in ['deposit', 'withdraw']]: equality with a [str] holds for the
    same [str] only. *)
Definition as_kind (v : json) : option kind :=
  match v with
  | JStr s =>
      if String.eqb s "deposit" then Some Deposit
      else if String.eqb s "withdraw" then Some Withdraw
      else None
  | _ => None
  end.

(** The values on which [float] does not raise [TypeError]. *)
Definition as_amount (v : json) : option amount :=
  match v with
  | JInt n => Some (AInt n)
  | JBool b => Some (ABool b)
  | JFloat f => Some (AFloat f)
  | JStr s => Some (AStr s)
  | JNull | JArr _ | JObj _ => None
  end.

(** [isinstance(v, int)]. *)
Definition as_int (v : json) : option pyint :=
  match v with
  | JInt n => Some (PInt n)
  | JBool b => Some (PBool b)
  | _ => None
  end.

(** Back to the JSON values the stored entries came from. *)
Definition json_of_int (i : pyint) : json :=
  match i with
  | PInt n => JInt n
  | PBool b => JBool b
  end.

Definition json_of_kind (k : kind) : json :=
  match k with
  | Deposit => JStr "deposit"
  | Withdraw => JStr "withdraw"
  end.

Definition json_of_amount (a : amount) : json :=
  match a with
  | AInt n => JInt n
  | ABool b => JBool b
  | AFloat f => JFloat f
  | AStr s => JStr s
  end.

Definition float_of_amount (a : amount) : outcome float :=
  match a with
  | AInt n =>
      let f := PyFloat.of_Z n in
      if is_infinity f then Raise OverflowError else Ret f
  | ABool b => Ret (if b then 1%float else 0%float)
  | AFloat f => Ret f
  | AStr s =>
      match PyFloat.of_string s with
      | Some f => Ret f
      | None => Raise ValueError
      end
  end.

Definition py_float (v : json) : outcome float :=
  match as_amount v with
  | Some a => float_of_amount a
  | None => Raise TypeError
  end.

(** ** Ordering

    [a > b] compares two numbers by their exact values, whatever mix of
    [int], [bool] and [float] they are (any comparison with a NaN is
    false), compares two strings lexicographically by code point, and
    raises [TypeError] between a number and a string. *)

Definition compare_Z_float (n : Z) (f : float) : option comparison :=
  match Prim2SF f with
  | S754_nan => None
  | S754_infinity neg => Some (if neg then Gt else Lt)
  | S754_zero _ => Some (n ?= 0)
  | S754_finite neg m e =>
      let v := if neg then Zneg m else Zpos m in
      Some (if 0 <=? e then n ?= v * 2 ^ e else n * 2 ^ (- e) ?= v)
  end.

Inductive number := NInt (n : Z) | NFloat (f : float).

Definition number_gt (x y : number) : bool :=
  match x, y with
  | NInt n, NInt m => m <? n
  | NInt n, NFloat g =>
      match compare_Z_float n g with Some Gt => true | _ => false end
  | NFloat f, NInt m =>
      match compare_Z_float m f with Some Lt => true | _ => false end
  | NFloat f, NFloat g => (g <? f)%float
  end.

Definition string_gt (s t : string) : bool :=
  match String.compare s t with
  | Gt => true
  | _ => false
  end.

Definition as_number (a : amount) : option number :=
  match a with
  | AInt n => Some (NInt n)
  | ABool b => Some (NInt (Z.b2z b))
  | AFloat f => Some (NFloat f)
  | AStr _ => None
  end.

Definition py_gt (a b : amount) : outcome bool :=
  match a, b with
  | AStr s, AStr t => Ret (string_gt s t)
  | _, _ =>
      match as_number a, as_number b with
      | Some x, Some y => Ret (number_gt x y)
      | _, _ => Raise TypeError
      end
  end.

(** [sum] over floats: the additions are made from the left, starting at
    zero, each rounded to binary64.  (CPython 3.12 and later carry a
    correction term along, which can change the last bits of the total.) *)
Definition py_sum (xs : list float) : float :=
  fold_left PrimFloat.add xs 0%float.

(** ** [validate_payload]

    The function answers [(True, None)] or [(False, message)].  The first
    answer is modelled by [Valid a], where [a] holds the four entries the
    caller goes on to use; the second by [Invalid message]. *)

Inductive validation :=
| Valid (a : action)
| Invalid (error_message : string).

Definition msg_missing (field : string) : string :=
  ("Missing field: " ++ field)%string.
Definition msg_type : string :=
  "Invalid action type. Must be 'deposit' or 'withdraw'.".
Definition msg_negative : string := "Amount cannot be negative.".
Definition msg_amount : string := "Invalid amount. Must be a valid number.".
Definition msg_user_id : string := "Invalid user_id. Must be an integer.".
Definition msg_time : string := "Invalid time. Must be an integer.".
Definition msg_sequential : string :=
  "Time must be sequential and increasing.".

(** The last check: the time must pass the time of the user's last stored
    action, when the user has a stored list. *)
Definition check_sequential (user_actions : gmap Z (list action))
    (a : action) : outcome validation :=
  match user_actions !! int_val (act_user_id a) with
  | Some actions =>
      match last actions with
      | Some last_action =>
          if time a <=? time last_action
          then Ret (Invalid msg_sequential)
          else Ret (Valid a)
      | None => Raise IndexError
      end
  | None => Ret (Valid a)
  end.

(** The checks on the types of ['user_id'] and ['time']. *)
Definition check_integers (user_actions : gmap Z (list action))
    (k : kind) (amt : amount) (v_user_id v_time : json)
  : outcome validation :=
  match as_int v_user_id with
  | None => Ret (Invalid msg_user_id)
  | Some user_id =>
      match as_int v_time with
      | None => Ret (Invalid msg_time)
      | Some t =>
          check_sequential user_actions
            {| act_type := k; act_amount := amt;
               act_user_id := user_id; act_time := t |}
      end
  end.

(** The [try] block around [float(data['amount'])]: only [ValueError] is
    caught. *)
Definition check_amount (user_actions : gmap Z (list action))
    (k : kind) (v_amount v_user_id v_time : json) : outcome validation :=
  match as_amount v_amount with
  | None => Raise TypeError
  | Some amt =>
      match float_of_amount amt with
      | Ret f =>
          if (f <? 0)%float then Ret (Invalid msg_negative)
          else check_integers user_actions k amt v_user_id v_time
      | Raise ValueError => Ret (Invalid msg_amount)
      | Raise e => Raise e
      end
  end.

Definition required_fields : list string :=
  ["type"; "amount"; "user_id"; "time"].

(** The loop over [required_fields] stops at the first absent key; the
    entries found are the ones the later checks read. *)
Definition validate_payload (user_actions : gmap Z (list action))
    (data : gmap string json) : outcome validation :=
  match data !! "type" with
  | None => Ret (Invalid (msg_missing "type"))
  | Some v_type =>
  match data !! "amount" with
  | None => Ret (Invalid (msg_missing "amount"))
  | Some v_amount =>
  match data !! "user_id" with
  | None => Ret (Invalid (msg_missing "user_id"))
  | Some v_user_id =>
  match data !! "time" with
  | None => Ret (Invalid (msg_missing "time"))
  | Some v_time =>
      match as_kind v_type with
      | None => Ret (Invalid msg_type)
      | Some k => check_amount user_actions k v_amount v_user_id v_time
      end
  end end end end.

(** ** The four rules of [event] *)

Definition is_withdraw (a : action) : Prop := act_type a = Withdraw.
Definition is_deposit (a : action) : Prop := act_type a = Deposit.

#[global] Instance is_withdraw_dec a : Decision (is_withdraw a).
Proof. unfold is_withdraw. apply _. Defined.
#[global] Instance is_deposit_dec a : Decision (is_deposit a).
Proof. unfold is_deposit. apply _. Defined.

(** Code 1100: [data['type'] == 'withdraw' and float(data['amount']) > 100];
    the conversion runs for a withdrawal only. *)
Definition rule_1100 (data : action) : outcome (list Z) :=
  match act_type data with
  | Withdraw =>
      f ← float_of_amount (act_amount data);
      mret (if (100 <? f)%float then [1100] else [])
  | Deposit => mret []
  end.

(** Code 30: the list holds three actions at least and the last three
    ([actions[-3:]]) are withdrawals. *)
Definition rule_30 (actions : list action) : list Z :=
  if bool_decide (3 <= length actions)%nat then
    let recent_actions := drop (length actions - 3) actions in
    if bool_decide (Forall is_withdraw recent_actions) then [30] else []
  else [].

(** Code 300: [deposits[-1]['amount'] > deposits[-2]['amount'] >
    deposits[-3]['amount']] on the stored amounts as they are; the second
    comparison runs when the first holds. *)
Definition rule_300 (actions : list action) : outcome (list Z) :=
  let deposits := filter is_deposit actions in
  match rev deposits with
  | d1 :: d2 :: d3 :: _ =>
      gt ← py_gt (act_amount d1) (act_amount d2);
      if gt : bool then
        gt' ← py_gt (act_amount d2) (act_amount d3);
        mret (if gt' : bool then [300] else [])
      else mret []
  | _ => mret []
  end.

Definition in_window (current_time : Z) (a : action) : Prop :=
  is_deposit a ∧ current_time - time a <= 30.

#[global] Instance in_window_dec t a : Decision (in_window t a).
Proof. unfold in_window. apply _. Defined.

(** Code 123: the deposits of the last 30 time units, converted one by one
    and summed. *)
Definition rule_123 (data : action) (actions : list action)
  : outcome (list Z) :=
  let current_time := time data in
  let recent_deposits := filter (in_window current_time) actions in
  amounts ← mapM (λ deposit, float_of_amount (act_amount deposit))
               recent_deposits;
  let total_deposits := py_sum amounts in
  mret (if (200 <? total_deposits)%float then [123] else []).

Definition rules (data : action) (actions : list action)
  : outcome (list Z) :=
  c1100 ← rule_1100 data;
  let c30 := rule_30 actions in
  c300 ← rule_300 actions;
  c123 ← rule_123 data actions;
  mret (c1100 ++ c30 ++ c300 ++ c123).

(** ** [event] *)

Record alert_result := {
  alert : bool;
  alert_codes : list Z;
  user_id : json
}.

(** The three ways the handler ends: the JSON answer with the codes, the
    400 answer with the validation message, or an exception nothing
    caught. *)
Inductive response :=
| Alert (r : alert_result)
| BadRequest (error : string)
| Uncaught (e : exn).

(** [bool(alert_codes)]. *)
Definition py_bool (codes : list Z) : bool :=
  match codes with
  | [] => false
  | _ :: _ => true
  end.

(** The dictionary after [user_actions[user_id].append(data)], the list
    being created when the key is new. *)
Definition append_action (user_actions : gmap Z (list action))
    (data : action) : gmap Z (list action) :=
  let user_id := int_val (act_user_id data) in
  <[user_id := default [] (user_actions !! user_id) ++ [data]]> user_actions.

Definition history (user_actions : gmap Z (list action)) (user : Z)
  : list action :=
  default [] (user_actions !! user).

Definition event (user_actions : gmap Z (list action))
    (data : gmap string json) : gmap Z (list action) * response :=
  match validate_payload user_actions data with
  | Raise e => (user_actions, Uncaught e)
  | Ret (Invalid error_message) => (user_actions, BadRequest error_message)
  | Ret (Valid a) =>
      let user_actions' := append_action user_actions a in
      let actions := history user_actions' (int_val (act_user_id a)) in
      (user_actions',
       match rules a actions with
       | Ret codes =>
           Alert {| alert := py_bool codes; alert_codes := codes;
                    user_id := json_of_int (act_user_id a) |}
       | Raise e => Uncaught e
       end)
  end.

(** A run of the service: the payloads handled one after the other. *)
Definition submit_all (user_actions : gmap Z (list action))
    (payloads : list (gmap string json)) : gmap Z (list action) :=
  fold_left (λ ua data, fst (event ua data)) payloads user_actions.

Inductive reachable : gmap Z (list action) → Prop :=
| reachable_empty : reachable ∅
| reachable_event ua data :
    reachable ua → reachable (fst (event ua data)).

(** A payload as a JSON object. *)
Definition payload (v_type v_amount v_user_id v_time : json)
  : gmap string json :=
  {[ "type" := v_type; "amount" := v_amount;
     "user_id" := v_user_id; "time" := v_time ]}.

(** ** The conditions of the rules, as the alert table words them *)

(** The action is a withdrawal whose amount, as a float, is above 100. *)
Definition large_withdrawal (a : action) : Prop :=
  act_type a = Withdraw ∧
  ∃ f, float_of_amount (act_amount a) = Ret f ∧ (100 <? f)%float = true.

(** The list ends with three withdrawals, whatever comes before them. *)
Definition triple_withdrawal (actions : list action) : Prop :=
  ∃ earlier w1 w2 w3,
    actions = earlier ++ [w1; w2; w3] ∧
    act_type w1 = Withdraw ∧ act_type w2 = Withdraw ∧ act_type w3 = Withdraw.

(** [amounts] are the amounts of [deposits] as floats, in the same order. *)
Definition amounts_of (deposits : list action) (amounts : list float) : Prop :=
  Forall2 (λ d f, float_of_amount (act_amount d) = Ret f) deposits amounts.

(** Consecutive stored actions have strictly increasing times. *)
Definition increasing_times (actions : list action) : Prop :=
  ∀ i x y, actions !! i = Some x → actions !! S i = Some y → time x < time y.

(** Every key of the dictionary holds a list that is not empty and whose
    times increase strictly. *)
Definition histories_ordered (user_actions : gmap Z (list action)) : Prop :=
  ∀ user actions, user_actions !! user = Some actions →
    actions ≠ [] ∧ increasing_times actions.


(** Every stored amount is one that [float] converts. *)
Definition amounts_convert (user_actions : gmap Z (list action)) : Prop :=
  ∀ user actions a, user_actions !! user = Some actions → a ∈ actions →
    ∃ f, float_of_amount (act_amount a) = Ret f.

(** ** The handler over any summation

    [sum] is a builtin, and what it returns on floats depends on the
    interpreter: CPython up to 3.11 adds from the left ([py_sum]), later
    versions carry a correction term along ([neumaier_sum]).  Rule 123 and
    the handler are written here with the summation left open; [rule_123],
    [rules] and [event] are their instances at [py_sum]. *)

Definition rule_123_with (sum : list float → float) (data : action)
    (actions : list action) : outcome (list Z) :=
  let current_time := time data in
  let recent_deposits := filter (in_window current_time) actions in
  amounts ← mapM (λ deposit, float_of_amount (act_amount deposit))
               recent_deposits;
  let total_deposits := sum amounts in
  mret (if (200 <? total_deposits)%float then [123] else []).

Definition rules_with (sum : list float → float) (data : action)
    (actions : list action) : outcome (list Z) :=
  c1100 ← rule_1100 data;
  let c30 := rule_30 actions in
  c300 ← rule_300 actions;
  c123 ← rule_123_with sum data actions;
  mret (c1100 ++ c30 ++ c300 ++ c123).

Definition event_with (sum : list float → float)
    (user_actions : gmap Z (list action)) (data : gmap string json)
  : gmap Z (list action) * response :=
  match validate_payload user_actions data with
  | Raise e => (user_actions, Uncaught e)
  | Ret (Invalid error_message) => (user_actions, BadRequest error_message)
  | Ret (Valid a) =>
      let user_actions' := append_action user_actions a in
      let actions := history user_actions' (int_val (act_user_id a)) in
      (user_actions',
       match rules_with sum a actions with
       | Ret codes =>
           Alert {| alert := py_bool codes; alert_codes := codes;
                    user_id := json_of_int (act_user_id a) |}
       | Raise e => Uncaught e
       end)
  end.

(** The summation of CPython 3.12 and later (Neumaier's): the running total
    and the correction, which is added at the end when it is finite and not
    zero. *)
Definition neumaier_step (state : float * float) (x : float)
  : float * float :=
  let '(total, c) := state in
  let t := (total + x)%float in
  (t, if (abs x <=? abs total)%float
      then (c + ((total - t) + x))%float
      else (c + ((x - t) + total))%float).

Definition neumaier_sum (xs : list float) : float :=
  let '(total, c) := fold_left neumaier_step xs (0%float, 0%float) in
  if negb (c =? 0)%float && is_finite c then (total + c)%float else total.

(** ** Exact values

    The rational number an amount stands for when it was sent as a JSON
    number; none for an infinity, a NaN or a string. *)

Definition float_value (f : float) : option QArith_base.Q :=
  match Prim2SF f with
  | S754_zero _ => Some (QArith_base.inject_Z 0)
  | S754_finite neg m e =>
      Some (QArith_base.Qmult (QArith_base.inject_Z (if neg then Zneg m else Zpos m))
              (QArith_base.Qpower (QArith_base.inject_Z 2) e))
  | S754_infinity _ | S754_nan => None
  end.

Definition amount_value (a : amount) : option QArith_base.Q :=
  match a with
  | AInt n => Some (QArith_base.inject_Z n)
  | ABool b => Some (QArith_base.inject_Z (Z.b2z b))
  | AFloat f => float_value f
  | AStr _ => None
  end.

(** The sum of the amounts of [deposits], without any rounding. *)
Definition exact_total (deposits : list action) : option QArith_base.Q :=
  foldr (λ d acc,
           v ← amount_value (act_amount d); t ← acc; Some (QArith_base.Qplus v t))
    (Some (QArith_base.inject_Z 0)) deposits.

(** The last three deposits go up, each above the one before, in the
    order [>] gives to the stored amounts. *)
Definition last_deposits_increase (actions : list action) : Prop :=
  ∃ earlier d1 d2 d3,
    filter is_deposit actions = earlier ++ [d1; d2; d3] ∧
    py_gt (act_amount d3) (act_amount d2) = Ret true ∧
    py_gt (act_amount d2) (act_amount d1) = Ret true.

(** ** Payloads of the examples *)

Definition deposit_of (v_amount : json) (user t : Z) : gmap string json :=
  payload (JStr "deposit") v_amount (JInt user) (JInt t).

Definition withdraw_of (v_amount : json) (user t : Z) : gmap string json :=
  payload (JStr "withdraw") v_amount (JInt user) (JInt t).

Definition stored (k : kind) (amt : amount) (user t : Z) : action :=
  {| act_type := k; act_amount := amt;
     act_user_id := PInt user; act_time := PInt t |}.

Definition answer (codes : list Z) (user : Z) : response :=
  Alert {| alert := py_bool codes; alert_codes := codes;
           user_id := JInt user |}.

(** The answers to a run from the empty dictionary, payload by payload. *)
Definition answers (payloads : list (gmap string json)) : list response :=
  snd (fold_left
         (λ '(ua, rs) data, let '(ua', r) := event ua data in (ua', rs ++ [r]))
         payloads (∅, [])).

(** * Properties *)

(** ** The error monad *)

Lemma bind_Ret {A B} (c : outcome A) (k : A → outcome B) (b : B) :
  c ≫= k = Ret b → ∃ a, c = Ret a ∧ k a = Ret b.
Proof. destruct c as [a|e]; [eauto | discriminate]. Qed.

Lemma mapM_Ret_Forall2 {A B} (f : A → outcome B) (l : list A) (k : list B) :
  mapM f l = Ret k ↔ Forall2 (λ x y, f x = Ret y) l k.
Proof.
  revert k. induction l as [|x l IH]; intros k; simpl.
  - split.
    + intros [= <-]. constructor.
    + intros H. inversion H. reflexivity.
  - split.
    + intros H. apply bind_Ret in H as (y & Hy & H).
      apply bind_Ret in H as (k' & Hk' & H). injection H as <-.
      constructor; [assumption | by apply IH].
    + intros H. inversion H as [|? y ? k' Hy Hk']; subst.
      apply IH in Hk'. rewrite Hy. simpl. rewrite Hk'. reflexivity.
Qed.

(** ** What a valid payload holds *)

Lemma as_kind_Some v k : as_kind v = Some k → v = json_of_kind k.
Proof.
  destruct v as [| | | |s| |]; simpl; try discriminate.
  destruct (String.eqb_spec s "deposit") as [->|_].
  - by intros [= <-].
  - destruct (String.eqb_spec s "withdraw") as [->|_]; [|discriminate].
    by intros [= <-].
Qed.

Lemma as_amount_Some v a : as_amount v = Some a → v = json_of_amount a.
Proof. destruct v; simpl; intros [= <-]; reflexivity. Qed.

Lemma as_int_Some v i : as_int v = Some i → v = json_of_int i.
Proof. destruct v; simpl; intros [= <-]; reflexivity. Qed.

Lemma py_float_json_of_amount a :
  py_float (json_of_amount a) = float_of_amount a.
Proof. destruct a; reflexivity. Qed.

Lemma check_sequential_Valid ua a a' :
  check_sequential ua a = Ret (Valid a') →
  a' = a ∧
  ∀ actions, ua !! int_val (act_user_id a) = Some actions →
    ∃ last_action, last actions = Some last_action ∧ time last_action < time a.
Proof.
  unfold check_sequential.
  destruct (ua !! int_val (act_user_id a)) as [actions|].
  - destruct (last actions) as [l|] eqn:Hl; [|discriminate].
    destruct (Z.leb_spec (time a) (time l)); [discriminate|].
    intros [= <-]. split; [reflexivity|].
    intros ? [= <-]. eauto.
  - intros [= <-]. split; [reflexivity | discriminate].
Qed.

(** A payload is found valid exactly when its four entries are there with
    the right types, the amount converts to a float that is not below
    zero, and the time passes the last stored one. *)
Lemma validate_payload_Valid ua data a :
  validate_payload ua data = Ret (Valid a) →
  data !! "type" = Some (json_of_kind (act_type a)) ∧
  data !! "amount" = Some (json_of_amount (act_amount a)) ∧
  data !! "user_id" = Some (json_of_int (act_user_id a)) ∧
  data !! "time" = Some (json_of_int (act_time a)) ∧
  (∃ f, float_of_amount (act_amount a) = Ret f ∧ (f <? 0)%float = false) ∧
  ∀ actions, ua !! int_val (act_user_id a) = Some actions →
    ∃ last_action, last actions = Some last_action ∧ time last_action < time a.
Proof.
  unfold validate_payload.
  destruct (data !! "type") as [v_type|]; [|discriminate].
  destruct (data !! "amount") as [v_amount|]; [|discriminate].
  destruct (data !! "user_id") as [v_user_id|]; [|discriminate].
  destruct (data !! "time") as [v_time|]; [|discriminate].
  destruct (as_kind v_type) as [k|] eqn:Hk; [|discriminate].
  unfold check_amount.
  destruct (as_amount v_amount) as [amt|] eqn:Hamt; [|discriminate].
  destruct (float_of_amount amt) as [f|e] eqn:Hf; [|by destruct e].
  destruct (f <? 0)%float eqn:Hneg; [discriminate|].
  unfold check_integers.
  destruct (as_int v_user_id) as [u|] eqn:Hu; [|discriminate].
  destruct (as_int v_time) as [t|] eqn:Ht; [|discriminate].
  intros H. apply check_sequential_Valid in H as [-> Hlast]. simpl in *.
  apply as_kind_Some in Hk as ->. apply as_amount_Some in Hamt as ->.
  apply as_int_Some in Hu as ->. apply as_int_Some in Ht as ->.
  repeat split; eauto.
Qed.

(** The action read from a payload does not depend on the dictionary. *)
Lemma validate_payload_action ua1 ua2 data a1 a2 :
  validate_payload ua1 data = Ret (Valid a1) →
  validate_payload ua2 data = Ret (Valid a2) →
  a1 = a2.
Proof.
  intros H1 H2.
  apply validate_payload_Valid in H1 as (Hk1 & Ha1 & Hu1 & Ht1 & _).
  apply validate_payload_Valid in H2 as (Hk2 & Ha2 & Hu2 & Ht2 & _).
  destruct a1 as [k1 m1 u1 t1], a2 as [k2 m2 u2 t2]; simpl in *.
  rewrite Hk1 in Hk2. rewrite Ha1 in Ha2. rewrite Hu1 in Hu2.
  rewrite Ht1 in Ht2.
  f_equal.
  - destruct k1, k2; simpl in Hk2; congruence.
  - destruct m1, m2; simpl in Ha2; congruence.
  - destruct u1, u2; simpl in Hu2; congruence.
  - destruct t1, t2; simpl in Ht2; congruence.
Qed.

(** ** The order of the checks *)

(** The first key of [required_fields] that the payload lacks is the one
    the answer names. *)
Lemma validate_payload_missing ua data i field :
  list_find (λ f, data !! f = None) required_fields = Some (i, field) →
  validate_payload ua data = Ret (Invalid (msg_missing field)).
Proof.
  intros H. apply list_find_Some in H as (Hi & Hnone & Hbefore).
  assert (∀ j f, required_fields !! j = Some f → (j < i)%nat →
            is_Some (data !! f)) as Hsome.
  { intros j f Hj Hlt. specialize (Hbefore j f Hj Hlt).
    by destruct (data !! f). }
  unfold validate_payload.
  destruct i as [|[|[|[|i]]]]; simpl in Hi; try discriminate;
    injection Hi as <-.
  - by rewrite Hnone.
  - destruct (Hsome 0%nat "type" eq_refl ltac:(lia)) as [? ->].
    by rewrite Hnone.
  - destruct (Hsome 0%nat "type" eq_refl ltac:(lia)) as [? ->].
    destruct (Hsome 1%nat "amount" eq_refl ltac:(lia)) as [? ->].
    by rewrite Hnone.
  - destruct (Hsome 0%nat "type" eq_refl ltac:(lia)) as [? ->].
    destruct (Hsome 1%nat "amount" eq_refl ltac:(lia)) as [? ->].
    destruct (Hsome 2%nat "user_id" eq_refl ltac:(lia)) as [? ->].
    by rewrite Hnone.
Qed.

(** With the four entries there, the type is checked first and the amount
    next. *)
Lemma validate_payload_present ua data v_type v_amount v_user_id v_time :
  data !! "type" = Some v_type →
  data !! "amount" = Some v_amount →
  data !! "user_id" = Some v_user_id →
  data !! "time" = Some v_time →
  validate_payload ua data =
    match as_kind v_type with
    | None => Ret (Invalid msg_type)
    | Some k => check_amount ua k v_amount v_user_id v_time
    end.
Proof. intros H1 H2 H3 H4. unfold validate_payload. by rewrite H1, H2, H3, H4. Qed.

(** An amount below zero, or a string that [float] cannot read, is answered
    before ['user_id'] and ['time'] are looked at. *)
Lemma check_amount_negative ua k v_amount v_user_id v_time f :
  py_float v_amount = Ret f → (f <? 0)%float = true →
  check_amount ua k v_amount v_user_id v_time = Ret (Invalid msg_negative).
Proof.
  unfold py_float, check_amount.
  destruct (as_amount v_amount); [|discriminate].
  intros -> ->. reflexivity.
Qed.

Lemma check_amount_unreadable ua k v_amount v_user_id v_time :
  py_float v_amount = Raise ValueError →
  check_amount ua k v_amount v_user_id v_time = Ret (Invalid msg_amount).
Proof.
  unfold py_float, check_amount.
  destruct (as_amount v_amount); [|discriminate].
  intros ->. reflexivity.
Qed.

(** With an amount that converts to a float not below zero, the user
    identifier is checked, then the time, then the order of the times. *)
Lemma check_amount_accepted ua k v_amount v_user_id v_time f :
  py_float v_amount = Ret f → (f <? 0)%float = false →
  ∃ amt, as_amount v_amount = Some amt ∧
    check_amount ua k v_amount v_user_id v_time =
      match as_int v_user_id, as_int v_time with
      | None, _ => Ret (Invalid msg_user_id)
      | Some _, None => Ret (Invalid msg_time)
      | Some user_id, Some t =>
          check_sequential ua
            {| act_type := k; act_amount := amt;
               act_user_id := user_id; act_time := t |}
      end.
Proof.
  unfold py_float, check_amount.
  destruct (as_amount v_amount) as [amt|]; [|discriminate].
  intros -> ->. exists amt. split; [reflexivity|].
  unfold check_integers. by destruct (as_int v_user_id), (as_int v_time).
Qed.

(** A time that does not pass the time of the user's last stored action is
    refused. *)
Lemma check_sequential_late ua a actions last_action :
  ua !! int_val (act_user_id a) = Some actions →
  last actions = Some last_action →
  time a <= time last_action →
  check_sequential ua a = Ret (Invalid msg_sequential).
Proof.
  intros Hu Hl Hle. unfold check_sequential. rewrite Hu, Hl.
  by destruct (Z.leb_spec (time a) (time last_action)); [|lia].
Qed.

(** ** The dictionary after an append *)

Lemma history_append_action ua a :
  history (append_action ua a) (int_val (act_user_id a))
  = history ua (int_val (act_user_id a)) ++ [a].
Proof.
  unfold history, append_action. by rewrite lookup_insert_eq.
Qed.

Lemma history_append_action_ne ua a user :
  user ≠ int_val (act_user_id a) →
  history (append_action ua a) user = history ua user.
Proof.
  intros Hne. unfold history, append_action. by rewrite lookup_insert_ne.
Qed.

(** ** The three ways [event] ends *)

Lemma event_rejected ua data :
  (∀ a, validate_payload ua data ≠ Ret (Valid a)) →
  fst (event ua data) = ua.
Proof.
  intros H. unfold event.
  destruct (validate_payload ua data) as [[a|msg]|e]; try reflexivity.
  by destruct (H a).
Qed.

Lemma event_Invalid ua data msg :
  validate_payload ua data = Ret (Invalid msg) →
  event ua data = (ua, BadRequest msg).
Proof. intros H. unfold event. by rewrite H. Qed.

Lemma event_Valid ua data a :
  validate_payload ua data = Ret (Valid a) →
  fst (event ua data) = append_action ua a.
Proof. intros H. unfold event. by rewrite H. Qed.

(** When the handler answers with the alert codes, each rule returned its
    own list and the answer lines them up. *)
Lemma event_Alert ua data a ua' r :
  validate_payload ua data = Ret (Valid a) →
  event ua data = (ua', Alert r) →
  let actions := history ua (int_val (act_user_id a)) ++ [a] in
  ua' = append_action ua a ∧
  ∃ c1100 c300 c123,
    rule_1100 a = Ret c1100 ∧
    rule_300 actions = Ret c300 ∧
    rule_123 a actions = Ret c123 ∧
    alert_codes r = c1100 ++ rule_30 actions ++ c300 ++ c123 ∧
    alert r = py_bool (alert_codes r) ∧
    user_id r = json_of_int (act_user_id a).
Proof.
  intros Hv. unfold event. rewrite Hv, history_append_action.
  destruct (rules a _) as [codes|e] eqn:Hr; [|discriminate].
  intros [= <- <-]. split; [reflexivity|].
  unfold rules in Hr.
  apply bind_Ret in Hr as (c1100 & H1 & Hr).
  apply bind_Ret in Hr as (c300 & H3 & Hr).
  apply bind_Ret in Hr as (c123 & H4 & Hr).
  injection Hr as <-. exists c1100, c300, c123. by simpl.
Qed.

Lemma event_Alert_valid ua data ua' r :
  event ua data = (ua', Alert r) →
  ∃ a, validate_payload ua data = Ret (Valid a).
Proof.
  unfold event.
  destruct (validate_payload ua data) as [[a|msg]|e]; try discriminate.
  eauto.
Qed.

(** ** What each rule returns *)

Lemma rule_1100_Ret a c :
  rule_1100 a = Ret c →
  (c = [1100] ∨ c = []) ∧ (c = [1100] ↔ large_withdrawal a).
Proof.
  unfold rule_1100, large_withdrawal.
  destruct (act_type a) eqn:Hk.
  - intros [= <-]. split; [by right|].
    split; [discriminate | intros [? _]; discriminate].
  - intros H. apply bind_Ret in H as (f & Hf & H). injection H as <-.
    destruct (100 <? f)%float eqn:Hgt.
    + split; [by left|]. split; [eauto | reflexivity].
    + split; [by right|]. split; [discriminate|].
      intros (_ & f' & Hf' & Hgt'). congruence.
Qed.

Lemma last_three {A} (l : list A) :
  (3 <= length l)%nat →
  ∃ x y z, drop (length l - 3) l = [x; y; z].
Proof.
  intros Hlen.
  assert (length (drop (length l - 3) l) = 3%nat) as H
    by (rewrite length_drop; lia).
  destruct (drop (length l - 3) l) as [|x [|y [|z [|? ?]]]];
    try discriminate.
  eauto.
Qed.

Lemma rule_30_cases actions :
  (rule_30 actions = [30] ∨ rule_30 actions = []) ∧
  (rule_30 actions = [30] ↔ triple_withdrawal actions).
Proof.
  unfold rule_30, triple_withdrawal.
  case_bool_decide as Hlen.
  - destruct (last_three actions Hlen) as (x & y & z & Hdrop).
    assert (actions = take (length actions - 3) actions ++ [x; y; z])
      as Hsplit by (rewrite <- Hdrop; symmetry; apply take_drop).
    rewrite Hdrop.
    case_bool_decide as Hall.
    + split; [by left|]. split; [|reflexivity]. intros _.
      exists (take (length actions - 3) actions), x, y, z.
      split; [exact Hsplit|].
      inversion Hall as [|? ? Hx Hall']; subst.
      inversion Hall' as [|? ? Hy Hall'']; subst.
      inversion Hall'' as [|? ? Hz _]; subst. done.
    + split; [by right|]. split; [discriminate|].
      intros (earlier & w1 & w2 & w3 & Heq & H1 & H2 & H3).
      destruct Hall. rewrite Hsplit in Heq.
      apply app_inj_2 in Heq as [_ [= -> -> ->]]; [|reflexivity].
      repeat constructor; assumption.
  - split; [by right|]. split; [discriminate|].
    intros (earlier & w1 & w2 & w3 & Heq & _). destruct Hlen.
    rewrite Heq, length_app. simpl. lia.
Qed.

Lemma rule_300_Ret actions c :
  rule_300 actions = Ret c → c = [300] ∨ c = [].
Proof.
  unfold rule_300.
  destruct (rev (filter is_deposit actions)) as [|d1 [|d2 [|d3 ?]]];
    try (intros [= <-]; by right).
  intros H. apply bind_Ret in H as ([] & _ & H).
  - apply bind_Ret in H as ([] & _ & H); injection H as <-; auto.
  - injection H as <-. by right.
Qed.

Lemma rule_123_Ret a actions c :
  rule_123 a actions = Ret c →
  ∃ amounts,
    amounts_of (filter (in_window (time a)) actions) amounts ∧
    c = if (200 <? py_sum amounts)%float then [123] else [].
Proof.
  unfold rule_123. intros H.
  apply bind_Ret in H as (amounts & Ham & H). injection H as <-.
  exists amounts. split; [|reflexivity].
  by apply mapM_Ret_Forall2.
Qed.

Lemma amounts_of_unique deposits amounts amounts' :
  amounts_of deposits amounts → amounts_of deposits amounts' →
  amounts = amounts'.
Proof.
  unfold amounts_of. intros H. revert amounts'.
  induction H as [|d f ds fs Hf _ IH]; intros amounts' H'.
  - by inversion H'.
  - inversion H' as [|? f' ? fs' Hf' Hfs']; subst.
    f_equal; [congruence | by apply IH].
Qed.

(** A goal [x ∈ codes ↔ c = [x]] on explicit lists of codes. *)
Ltac elem_of_codes :=
  let H := fresh in
  split; intros H;
  [ repeat (apply elem_of_cons in H as [H|H]; [discriminate H|]);
    first [ reflexivity | by apply elem_of_nil in H ]
  | first [ discriminate H
          | repeat first
              [ apply list_elem_of_here | apply list_elem_of_further ] ] ].

(** Membership in the list of codes is decided rule by rule, and the codes
    come in the order of the rules. *)
Lemma codes_in_order c1100 c30 c300 c123 :
  c1100 = [1100] ∨ c1100 = [] →
  c30 = [30] ∨ c30 = [] →
  c300 = [300] ∨ c300 = [] →
  c123 = [123] ∨ c123 = [] →
  (1100 ∈ c1100 ++ c30 ++ c300 ++ c123 ↔ c1100 = [1100]) ∧
  (30 ∈ c1100 ++ c30 ++ c300 ++ c123 ↔ c30 = [30]) ∧
  (300 ∈ c1100 ++ c30 ++ c300 ++ c123 ↔ c300 = [300]) ∧
  (123 ∈ c1100 ++ c30 ++ c300 ++ c123 ↔ c123 = [123]) ∧
  sublist (c1100 ++ c30 ++ c300 ++ c123) [1100; 30; 300; 123].
Proof.
  intros [-> | ->] [-> | ->] [-> | ->] [-> | ->]; simpl;
    (split_and!;
     [ elem_of_codes ..
     | repeat first
         [ apply sublist_nil | apply sublist_skip | apply sublist_cons ] ]).
Qed.

(** * The rules of the alert table *)

Section Accepted.

(** A payload that the validation accepts and that the handler answers
    with the alert codes. *)
Context (ua : gmap Z (list action)) (data : gmap string json).
Context (a : action) (ua' : gmap Z (list action)) (r : alert_result).
Hypothesis Hvalid : validate_payload ua data = Ret (Valid a).
Hypothesis Hevent : event ua data = (ua', Alert r).

Lemma accepted_history :
  history ua' (int_val (act_user_id a))
  = history ua (int_val (act_user_id a)) ++ [a].
Proof.
  destruct (event_Alert _ _ _ _ _ Hvalid Hevent) as (-> & _).
  apply history_append_action.
Qed.

Lemma accepted_codes :
  let actions := history ua' (int_val (act_user_id a)) in
  (1100 ∈ alert_codes r ↔ large_withdrawal a) ∧
  (30 ∈ alert_codes r ↔ triple_withdrawal actions) ∧
  (∃ amounts,
     amounts_of (filter (in_window (time a)) actions) amounts ∧
     (123 ∈ alert_codes r ↔ (200 <? py_sum amounts)%float = true)) ∧
  sublist (alert_codes r) [1100; 30; 300; 123].
Proof.
  rewrite accepted_history. intros actions.
  destruct (event_Alert _ _ _ _ _ Hvalid Hevent)
    as (_ & c1100 & c300 & c123 & H1 & H3 & H4 & -> & _).
  fold actions in H3, H4 |- *.
  pose proof (rule_1100_Ret _ _ H1) as [Hc1 Hlarge].
  pose proof (rule_30_cases actions) as [Hc2 Htriple].
  pose proof (rule_300_Ret _ _ H3) as Hc3.
  apply rule_123_Ret in H4 as (amounts & Ham & Hc4).
  assert (c123 = [123] ∨ c123 = []) as Hc4'
    by (rewrite Hc4; destruct (200 <? py_sum amounts)%float; auto).
  destruct (codes_in_order _ _ _ _ Hc1 Hc2 Hc3 Hc4')
    as (E1 & E2 & _ & E4 & Hsub).
  split_and!; try assumption.
  - by rewrite E1.
  - by rewrite E2.
  - exists amounts. split; [assumption|]. rewrite E4, Hc4.
    destruct (200 <? py_sum amounts)%float; split; done.
Qed.

(** C3. Code 30 is in the answer exactly when the user's list, the new
    action included, ends with three withdrawals; what comes before the
    last three plays no part. *)
Theorem triple_withdrawal_alert :
  30 ∈ alert_codes r ↔
    ∃ earlier w1 w2 w3,
      history ua' (int_val (act_user_id a)) = earlier ++ [w1; w2; w3] ∧
      act_type w1 = Withdraw ∧ act_type w2 = Withdraw ∧
      act_type w3 = Withdraw.
Proof. by destruct accepted_codes as (_ & -> & _). Qed.

End Accepted.

Lemma triple_withdrawal_alert_witness :
  30 ∈ [30] ↔
    ∃ earlier w1 w2 w3,
      history
        (submit_all ∅ [deposit_of (JInt 50) 7 1; withdraw_of (JInt 10) 7 2;
                       withdraw_of (JInt 10) 7 3; withdraw_of (JInt 10) 7 4])
        7 = earlier ++ [w1; w2; w3] ∧
      act_type w1 = Withdraw ∧ act_type w2 = Withdraw ∧
      act_type w3 = Withdraw.
Proof.
  apply (triple_withdrawal_alert
           (submit_all ∅ [deposit_of (JInt 50) 7 1;
                          withdraw_of (JInt 10) 7 2;
                          withdraw_of (JInt 10) 7 3])
           (withdraw_of (JInt 10) 7 4)
           (stored Withdraw (AInt 10) 7 4)
           _ {| alert := true; alert_codes := [30]; user_id := JInt 7 |});
    vm_compute; reflexivity.
Defined.

(** C4. Code 1100 is in the answer exactly when the submitted payload is a
    withdrawal whose amount, converted by [float], is above 100.  The
    condition reads the payload only, not the stored actions. *)
Theorem large_withdrawal_alert ua data ua' r :
  event ua data = (ua', Alert r) →
  1100 ∈ alert_codes r ↔
    data !! "type" = Some (JStr "withdraw") ∧
    ∃ v f, data !! "amount" = Some v ∧ py_float v = Ret f ∧
           (100 <? f)%float = true.
Proof.
  intros Hev. destruct (event_Alert_valid _ _ _ _ Hev) as [a Hv].
  destruct (accepted_codes _ _ _ _ _ Hv Hev) as (-> & _).
  apply validate_payload_Valid in Hv as (Hk & Ham & _).
  unfold large_withdrawal. rewrite Hk, Ham. split.
  - intros (Hw & f & Hf & Hgt). rewrite Hw. split; [reflexivity|].
    exists (json_of_amount (act_amount a)), f.
    by rewrite py_float_json_of_amount.
  - intros (Hw & v & f & [= <-] & Hf & Hgt).
    rewrite py_float_json_of_amount in Hf. split; [|eauto].
    destruct (act_type a); [discriminate | reflexivity].
Qed.

Lemma large_withdrawal_alert_witness :
  1100 ∈ [1100] ↔
    withdraw_of (JInt 150) 1 5 !! "type" = Some (JStr "withdraw") ∧
    ∃ v f, withdraw_of (JInt 150) 1 5 !! "amount" = Some v ∧
           py_float v = Ret f ∧ (100 <? f)%float = true.
Proof.
  apply (large_withdrawal_alert ∅ (withdraw_of (JInt 150) 1 5)
           (append_action ∅ (stored Withdraw (AInt 150) 1 5))
           {| alert := true; alert_codes := [1100]; user_id := JInt 1 |}).
  vm_compute. reflexivity.
Defined.

(** C10. In the answer, [alert] is true exactly when a code fired, and
    [user_id] is the ['user_id'] entry of the payload. *)
Theorem alert_result_fields ua data ua' r :
  event ua data = (ua', Alert r) →
  (alert r = true ↔ alert_codes r ≠ []) ∧
  data !! "user_id" = Some (user_id r).
Proof.
  intros Hev. destruct (event_Alert_valid _ _ _ _ Hev) as [a Hv].
  destruct (event_Alert _ _ _ _ _ Hv Hev)
    as (_ & ? & ? & ? & _ & _ & _ & _ & -> & ->).
  apply validate_payload_Valid in Hv as (_ & _ & Hu & _).
  split; [|exact Hu].
  destruct (alert_codes r); simpl; split; done.
Qed.

Lemma alert_result_fields_witness :
  (true = true ↔ [1100] ≠ []) ∧
  withdraw_of (JInt 150) 1 5 !! "user_id" = Some (JInt 1).
Proof.
  apply (alert_result_fields ∅ (withdraw_of (JInt 150) 1 5)
           (append_action ∅ (stored Withdraw (AInt 150) 1 5))
           {| alert := true; alert_codes := [1100]; user_id := JInt 1 |}).
  vm_compute. reflexivity.
Defined.

(** * Rejected payloads *)

Lemma submit_all_rejected ua data n :
  (∀ a, validate_payload ua data ≠ Ret (Valid a)) →
  submit_all ua (replicate n data) = ua.
Proof.
  intros H. induction n as [|n IH]; [reflexivity|].
  unfold submit_all in *. simpl. by rewrite event_rejected.
Qed.

(** C6. A payload that [validate_payload] refuses is answered with the
    message and leaves the dictionary as it was: no list gains an action
    and no key is added.  Sending it again, any number of times, leaves the
    dictionary the same each time. *)
Theorem rejected_payload_no_effect ua data msg :
  validate_payload ua data = Ret (Invalid msg) →
  event ua data = (ua, BadRequest msg) ∧
  ∀ n, submit_all ua (replicate n data) = ua
       ∧ event (submit_all ua (replicate n data)) data = (ua, BadRequest msg).
Proof.
  intros Hv. split; [by apply event_Invalid|].
  intros n.
  rewrite submit_all_rejected by (intros a; rewrite Hv; discriminate).
  split; [reflexivity | by apply event_Invalid].
Qed.

Lemma rejected_payload_no_effect_witness :
  let ua := submit_all ∅ [deposit_of (JInt 10) 1 5] in
  let data := deposit_of (JInt 10) 1 5 in
  event ua data = (ua, BadRequest msg_sequential) ∧
  ∀ n, submit_all ua (replicate n data) = ua
       ∧ event (submit_all ua (replicate n data)) data
         = (ua, BadRequest msg_sequential).
Proof.
  apply (rejected_payload_no_effect
           (submit_all ∅ [deposit_of (JInt 10) 1 5])
           (deposit_of (JInt 10) 1 5) msg_sequential).
  vm_compute. reflexivity.
Defined.

(** * The order of the stored times *)

Lemma increasing_times_snoc actions a :
  increasing_times actions →
  (∀ last_action, last actions = Some last_action →
     time last_action < time a) →
  increasing_times (actions ++ [a]).
Proof.
  intros Hinc Hlast i x y Hx Hy.
  destruct (decide (S i < length actions)%nat) as [Hlt|Hge].
  - rewrite lookup_app_l in Hx by lia. rewrite lookup_app_l in Hy by lia.
    eauto.
  - assert (i < length actions)%nat as Hi.
    { apply lookup_lt_Some in Hy. rewrite length_app in Hy. simpl in Hy.
      lia. }
    assert (S i = length actions) as HS by lia.
    rewrite lookup_app_l in Hx by lia.
    rewrite lookup_app_r, HS, Nat.sub_diag in Hy by lia.
    injection Hy as <-. apply Hlast.
    rewrite last_lookup. by replace (pred (length actions)) with i by lia.
Qed.

Lemma append_action_ordered ua a :
  histories_ordered ua →
  (∀ actions, ua !! int_val (act_user_id a) = Some actions →
     ∃ last_action, last actions = Some last_action ∧
                    time last_action < time a) →
  histories_ordered (append_action ua a).
Proof.
  intros Hord Hseq user actions. unfold append_action.
  destruct (decide (int_val (act_user_id a) = user)) as [<-|Hne].
  - rewrite lookup_insert_eq. intros [= <-]. split.
    + intros H. by apply app_eq_nil in H as [_ ?].
    + destruct (ua !! int_val (act_user_id a)) as [old|] eqn:Hold; simpl.
      * apply increasing_times_snoc; [by eapply Hord|].
        destruct (Hseq old eq_refl) as (l & Hl & Hlt).
        intros l' Hl'. congruence.
      * intros [|i] x y Hx Hy; discriminate.
  - rewrite lookup_insert_ne by done. apply Hord.
Qed.

Lemma event_ordered ua data :
  histories_ordered ua → histories_ordered (fst (event ua data)).
Proof.
  intros Hord.
  destruct (validate_payload ua data) as [[a|msg]|e] eqn:Hv.
  - rewrite (event_Valid _ _ _ Hv).
    apply append_action_ordered; [assumption|].
    by apply validate_payload_Valid in Hv as (_ & _ & _ & _ & _ & ?).
  - by rewrite event_Invalid with (msg := msg).
  - rewrite event_rejected; [assumption|]. intros a. by rewrite Hv.
Qed.

Lemma reachable_ordered ua : reachable ua → histories_ordered ua.
Proof.
  induction 1 as [|ua data _ IH].
  - intros user actions H. by rewrite lookup_empty in H.
  - by apply event_ordered.
Qed.

Lemma submit_all_reachable ua payloads :
  reachable ua → reachable (submit_all ua payloads).
Proof.
  revert ua. induction payloads as [|data payloads IH]; intros ua Hua.
  - exact Hua.
  - apply IH. by constructor.
Qed.

(** C7. Whatever payloads were handled since the start, every key of the
    dictionary holds a list that is not empty and in which each action has
    a time strictly above the time of the action before it; handling one
    more payload keeps it so. *)
Theorem stored_times_increase payloads :
  histories_ordered (submit_all ∅ payloads) ∧
  ∀ ua data, histories_ordered ua → histories_ordered (fst (event ua data)).
Proof.
  split.
  - apply reachable_ordered, submit_all_reachable. constructor.
  - intros ua data. apply event_ordered.
Qed.

(** * Where the handler leaves the documented behaviour *)

(** C1. Rule 300 compares the stored amounts as they are, without the
    [float] conversion the other rules apply.  With amounts sent as
    strings the comparison is the one of strings: after the deposits
    ["100"], ["20"] and ["3"], whose values go down, the answer holds 300;
    after ["5"], ["10"] and ["20"], whose values go up, it does not. *)
Theorem increasing_deposits_on_strings :
  snd (event
         (submit_all ∅ [deposit_of (JStr "100") 1 1;
                        deposit_of (JStr "20") 1 2])
         (deposit_of (JStr "3") 1 3)) = answer [300] 1 ∧
  snd (event
         (submit_all ∅ [deposit_of (JStr "5") 1 1;
                        deposit_of (JStr "10") 1 2])
         (deposit_of (JStr "20") 1 3)) = answer [] 1 ∧
  py_float (JStr "100") = Ret 100%float ∧
  py_float (JStr "20") = Ret 20%float ∧
  py_float (JStr "10") = Ret 10%float ∧
  py_float (JStr "5") = Ret 5%float ∧
  py_float (JStr "3") = Ret 3%float.
Proof. split_and!; vm_compute; reflexivity. Qed.

(** C8. An amount that is [null], a list or an object makes [float] raise
    [TypeError], and an integer too large for a float makes it raise
    [OverflowError]; the [try] block catches [ValueError] only, so
    [validate_payload] raises instead of answering with the message for an
    invalid amount. *)
Theorem invalid_amount_raises :
  validate_payload ∅ (deposit_of JNull 1 1) = Raise TypeError ∧
  validate_payload ∅ (deposit_of (JArr []) 1 1) = Raise TypeError ∧
  validate_payload ∅ (deposit_of (JObj ∅) 1 1) = Raise TypeError ∧
  validate_payload ∅ (deposit_of (JInt (10 ^ 400)) 1 1) = Raise OverflowError ∧
  validate_payload ∅ (deposit_of (JStr "ten") 1 1) = Ret (Invalid msg_amount).
Proof. split_and!; vm_compute; reflexivity. Qed.

(** C9. Two ways to an exception that nothing catches: an amount on which
    [float] raises [TypeError] during the validation, and a deposit sent as
    a string followed by two larger ones sent as numbers, on which rule 300
    compares a number with a string.  The second one is raised after the
    action was stored, and every later payload of that user meets it
    again. *)
Theorem uncaught_exceptions :
  event ∅ (deposit_of JNull 1 1) = (∅, Uncaught TypeError) ∧
  let ua := submit_all ∅ [deposit_of (JStr "10") 1 1;
                          deposit_of (JInt 20) 1 2] in
  snd (event ua (deposit_of (JInt 30) 1 3)) = Uncaught TypeError ∧
  history (fst (event ua (deposit_of (JInt 30) 1 3))) 1
  = [stored Deposit (AStr "10") 1 1; stored Deposit (AInt 20) 1 2;
     stored Deposit (AInt 30) 1 3] ∧
  snd (event (fst (event ua (deposit_of (JInt 30) 1 3)))
         (withdraw_of (JInt 1) 1 4)) = Uncaught TypeError.
Proof. cbv zeta. split_and!; vm_compute; reflexivity. Qed.

(** ** Rule 300 on the last three deposits *)

Lemma rule_300_last_three actions earlier d1 d2 d3 :
  filter is_deposit actions = earlier ++ [d1; d2; d3] →
  rule_300 actions =
    gt ← py_gt (act_amount d3) (act_amount d2);
    if gt : bool then
      gt' ← py_gt (act_amount d2) (act_amount d1);
      mret (if gt' : bool then [300] else [])
    else mret [].
Proof.
  intros H. unfold rule_300. rewrite H, rev_app_distr. reflexivity.
Qed.

(** On amounts that are numbers the rule compares their exact values. *)
Lemma rule_300_numbers actions earlier d1 d2 d3 x1 x2 x3 :
  filter is_deposit actions = earlier ++ [d1; d2; d3] →
  as_number (act_amount d1) = Some x1 →
  as_number (act_amount d2) = Some x2 →
  as_number (act_amount d3) = Some x3 →
  rule_300 actions =
    Ret (if number_gt x3 x2 && number_gt x2 x1 then [300] else []).
Proof.
  intros H H1 H2 H3. rewrite (rule_300_last_three _ _ _ _ _ H).
  assert (∀ a b x y, as_number a = Some x → as_number b = Some y →
            py_gt a b = Ret (number_gt x y)) as Hgt.
  { intros a b x y Ha Hb. unfold py_gt. rewrite Ha, Hb.
    destruct a, b; try reflexivity; discriminate. }
  rewrite (Hgt _ _ _ _ H3 H2). simpl.
  destruct (number_gt x3 x2); [|reflexivity].
  rewrite (Hgt _ _ _ _ H2 H1). simpl. by destruct (number_gt x2 x1).
Qed.

(** On amounts that are strings it compares the strings. *)
Lemma rule_300_strings actions earlier d1 d2 d3 s1 s2 s3 :
  filter is_deposit actions = earlier ++ [d1; d2; d3] →
  act_amount d1 = AStr s1 → act_amount d2 = AStr s2 →
  act_amount d3 = AStr s3 →
  rule_300 actions =
    Ret (if string_gt s3 s2 && string_gt s2 s1 then [300] else []).
Proof.
  intros H H1 H2 H3. rewrite (rule_300_last_three _ _ _ _ _ H).
  rewrite H1, H2, H3. simpl.
  destruct (string_gt s3 s2); [|reflexivity].
  simpl. by destruct (string_gt s2 s1).
Qed.

(** ** The exceptions that can leave the handler *)

Lemma float_of_amount_Raise a e :
  float_of_amount a = Raise e → e = OverflowError ∨ e = ValueError.
Proof.
  destruct a as [n|b|f|s]; simpl; try discriminate.
  - destruct (is_infinity _); [|discriminate]. intros [= <-]. by left.
  - destruct (PyFloat.of_string s); [discriminate|]. intros [= <-].
    by right.
Qed.

Lemma py_gt_Raise a b e : py_gt a b = Raise e → e = TypeError.
Proof.
  unfold py_gt.
  destruct a, b; simpl; try discriminate; by intros [= <-].
Qed.

Lemma mapM_Ret_total {A B} (f : A → outcome B) (l : list A) :
  Forall (λ x, ∃ y, f x = Ret y) l → ∃ k, mapM f l = Ret k.
Proof.
  induction 1 as [|x l [y Hy] _ [k Hk]]; simpl.
  - by exists [].
  - exists (y :: k). rewrite Hy. simpl. by rewrite Hk.
Qed.

Lemma validate_payload_Raise ua data e :
  histories_ordered ua →
  validate_payload ua data = Raise e →
  e = TypeError ∨ e = OverflowError.
Proof.
  intros Hord. unfold validate_payload.
  destruct (data !! "type") as [v_type|]; [|discriminate].
  destruct (data !! "amount") as [v_amount|]; [|discriminate].
  destruct (data !! "user_id") as [v_user_id|]; [|discriminate].
  destruct (data !! "time") as [v_time|]; [|discriminate].
  destruct (as_kind v_type) as [k|]; [|discriminate].
  unfold check_amount.
  destruct (as_amount v_amount) as [amt|]; [|intros [= <-]; by left].
  destruct (float_of_amount amt) as [f|e'] eqn:Hf.
  - destruct (f <? 0)%float; [discriminate|].
    unfold check_integers.
    destruct (as_int v_user_id) as [u|]; [|discriminate].
    destruct (as_int v_time) as [t|]; [|discriminate].
    unfold check_sequential. simpl.
    destruct (ua !! int_val u) as [actions|] eqn:Hu; [|discriminate].
    destruct (last actions) as [l|] eqn:Hl.
    + by destruct (_ <=? _).
    + apply last_None in Hl. by destruct (Hord _ _ Hu).
  - apply float_of_amount_Raise in Hf as [-> | ->]; [|discriminate].
    intros [= <-]. by right.
Qed.

Lemma rules_Raise a actions e :
  (∃ f, float_of_amount (act_amount a) = Ret f) →
  Forall (λ d, ∃ f, float_of_amount (act_amount d) = Ret f) actions →
  rules a actions = Raise e →
  e = TypeError.
Proof.
  intros [f Hf] Hall. unfold rules.
  assert (∃ c, rule_1100 a = Ret c) as [c1 ->].
  { unfold rule_1100. destruct (act_type a); [by eexists|].
    rewrite Hf. simpl. by eexists. }
  simpl.
  assert (∃ c, rule_123 a actions = Ret c) as [c4 ->].
  { unfold rule_123.
    destruct (mapM_Ret_total
                (λ deposit, float_of_amount (act_amount deposit))
                (filter (in_window (time a)) actions)) as [k ->].
    - apply Forall_forall. intros d Hd.
      apply list_elem_of_filter in Hd as [_ Hd].
      by apply (proj1 (Forall_forall _ _) Hall).
    - simpl. by eexists. }
  destruct (rule_300 actions) as [c3|e'] eqn:H3; [discriminate|].
  intros [= <-]. unfold rule_300 in H3.
  destruct (rev (filter is_deposit actions)) as [|d1 [|d2 [|d3 ?]]];
    try discriminate.
  destruct (py_gt (act_amount d1) (act_amount d2)) as [[]|] eqn:Hgt;
    simpl in H3.
  - destruct (py_gt (act_amount d2) (act_amount d3)) as [[]|] eqn:Hgt';
      simpl in H3; try discriminate.
    injection H3 as <-. by apply py_gt_Raise in Hgt'.
  - discriminate.
  - injection H3 as <-. by apply py_gt_Raise in Hgt.
Qed.

Lemma event_convert ua data :
  amounts_convert ua → amounts_convert (fst (event ua data)).
Proof.
  intros Hconv.
  destruct (validate_payload ua data) as [[a|msg]|e] eqn:Hv.
  - rewrite (event_Valid _ _ _ Hv).
    apply validate_payload_Valid in Hv
      as (_ & _ & _ & _ & (f & Hf & _) & _).
    intros user actions d. unfold append_action.
    destruct (decide (int_val (act_user_id a) = user)) as [<-|Hne].
    + rewrite lookup_insert_eq. intros [= <-] Hd.
      apply elem_of_app in Hd as [Hd|Hd].
      * destruct (ua !! int_val (act_user_id a)) as [old|] eqn:Hold;
          simpl in Hd; [by eapply Hconv | by apply elem_of_nil in Hd].
      * apply list_elem_of_singleton in Hd as ->. eauto.
    + rewrite lookup_insert_ne by done. apply Hconv.
  - by rewrite event_Invalid with (msg := msg).
  - rewrite event_rejected; [assumption|]. intros a. by rewrite Hv.
Qed.

Lemma reachable_convert ua : reachable ua → amounts_convert ua.
Proof.
  induction 1 as [|ua data _ IH].
  - intros user actions a H. by rewrite lookup_empty in H.
  - by apply event_convert.
Qed.

(** In a run from the empty dictionary the handler ends in one of three
    ways: the answer with the codes, a refusal with its message, or one of
    two exceptions, [TypeError] and [OverflowError].  A [ValueError] is
    always caught, and the last action of a stored list is always there. *)
Lemma reachable_uncaught ua data ua' e :
  reachable ua →
  event ua data = (ua', Uncaught e) →
  e = TypeError ∨ e = OverflowError.
Proof.
  intros Hreach. unfold event.
  destruct (validate_payload ua data) as [[a|msg]|e'] eqn:Hv.
  - destruct (rules a _) as [codes|e'] eqn:Hr; [discriminate|].
    intros [= _ <-]. left.
    pose proof (reachable_convert _ (reachable_event _ data Hreach)) as Hconv.
    rewrite (event_Valid _ _ _ Hv) in Hconv.
    apply validate_payload_Valid in Hv
      as (_ & _ & _ & _ & (f & Hf & _) & _).
    eapply rules_Raise; [eauto | | exact Hr].
    apply Forall_forall. intros d Hd.
    rewrite history_append_action in Hd.
    apply (Hconv (int_val (act_user_id a))
             (history ua (int_val (act_user_id a)) ++ [a])); [|exact Hd].
    unfold append_action, history. by rewrite lookup_insert_eq.
  - discriminate.
  - intros [= _ <-].
    eapply validate_payload_Raise; [by apply reachable_ordered | exact Hv].
Qed.

(** * Runs and reachable dictionaries *)

Lemma submit_all_app ua payloads payloads' :
  submit_all ua (payloads ++ payloads')
  = submit_all (submit_all ua payloads) payloads'.
Proof. apply fold_left_app. Qed.

Lemma reachable_submit_all ua :
  reachable ua ↔ ∃ payloads, ua = submit_all ∅ payloads.
Proof.
  split.
  - induction 1 as [|ua data _ [payloads ->]].
    + by exists [].
    + exists (payloads ++ [data]). by rewrite submit_all_app.
  - intros [payloads ->]. apply submit_all_reachable. constructor.
Qed.

(** * Worked examples *)

Example large_withdrawal_alone :
  answers [withdraw_of (JInt 150) 1 7] = [answer [1100] 1].
Proof. vm_compute. reflexivity. Qed.

Example three_withdrawals :
  answers [withdraw_of (JInt 10) 1 1; withdraw_of (JInt 10) 1 2;
           withdraw_of (JInt 10) 1 3]
  = [answer [] 1; answer [] 1; answer [30] 1].
Proof. vm_compute. reflexivity. Qed.

Example increasing_deposits :
  answers [deposit_of (JInt 10) 1 1; deposit_of (JInt 20) 1 2;
           deposit_of (JInt 30) 1 3]
  = [answer [] 1; answer [] 1; answer [300] 1].
Proof. vm_compute. reflexivity. Qed.

Example deposits_not_increasing :
  answers [deposit_of (JInt 10) 1 1; deposit_of (JInt 30) 1 2;
           deposit_of (JInt 20) 1 3]
  = [answer [] 1; answer [] 1; answer [] 1].
Proof. vm_compute. reflexivity. Qed.

Example equal_deposits :
  answers [deposit_of (JInt 10) 1 1; deposit_of (JInt 20) 1 2;
           deposit_of (JFloat 20) 1 3]
  = [answer [] 1; answer [] 1; answer [] 1].
Proof. vm_compute. reflexivity. Qed.

Example deposits_in_window :
  answers [deposit_of (JInt 100) 1 0; deposit_of (JInt 150) 1 10]
  = [answer [] 1; answer [123] 1].
Proof. vm_compute. reflexivity. Qed.

Example deposits_at_window_edge :
  answers [deposit_of (JInt 100) 1 0; deposit_of (JInt 150) 1 30]
  = [answer [] 1; answer [123] 1].
Proof. vm_compute. reflexivity. Qed.

Example deposits_out_of_window :
  answers [deposit_of (JInt 100) 1 0; deposit_of (JInt 150) 1 40]
  = [answer [] 1; answer [] 1].
Proof. vm_compute. reflexivity. Qed.

Example withdrawal_after_two :
  answers [withdraw_of (JInt 10) 1 1; withdraw_of (JInt 10) 1 2;
           withdraw_of (JInt 200) 1 3]
  = [answer [] 1; answer [] 1; answer [1100; 30] 1].
Proof. vm_compute. reflexivity. Qed.

Example refusals :
  answers [deposit_of (JInt (-1)) 1 1; deposit_of (JStr "ten") 1 1;
           payload (JStr "Deposit") (JInt 1) (JInt 1) (JInt 1);
           payload (JStr "deposit") (JInt 1) (JStr "1") (JInt 1);
           payload (JStr "deposit") (JInt 1) (JInt 1) (JFloat 1);
           deposit_of (JInt 1) 1 5; deposit_of (JInt 1) 1 5;
           deposit_of (JInt 1) 1 4; delete "amount" (deposit_of (JInt 1) 1 6)]
  = [BadRequest msg_negative; BadRequest msg_amount; BadRequest msg_type;
     BadRequest msg_user_id; BadRequest msg_time; answer [] 1;
     BadRequest msg_sequential; BadRequest msg_sequential;
     BadRequest (msg_missing "amount")].
Proof. vm_compute. reflexivity. Qed.

(** [True] and [1] are the same key of the dictionary. *)
Example boolean_user :
  answers [payload (JStr "withdraw") (JBool true) (JBool true) (JInt 3);
           withdraw_of (JStr " 1e3 ") 1 3; withdraw_of (JStr " 1e3 ") 1 4]
  = [Alert {| alert := false; alert_codes := []; user_id := JBool true |};
     BadRequest msg_sequential; answer [1100] 1].
Proof. vm_compute. reflexivity. Qed.

(** * Further properties of [validate_payload] *)

Lemma as_kind_json_of_kind k : as_kind (json_of_kind k) = Some k.
Proof. by destruct k. Qed.

Lemma as_amount_json_of_amount amt :
  as_amount (json_of_amount amt) = Some amt.
Proof. by destruct amt. Qed.

Lemma as_int_json_of_int i : as_int (json_of_int i) = Some i.
Proof. by destruct i. Qed.

Lemma as_kind_None v :
  v ≠ JStr "deposit" → v ≠ JStr "withdraw" → as_kind v = None.
Proof.
  intros Hd Hw. destruct (as_kind v) as [k|] eqn:Hk; [|reflexivity].
  apply as_kind_Some in Hk. by destruct k.
Qed.

(** The checks on the entries of the payload do not read the dictionary:
    only the last one does. *)
Lemma validate_payload_shape ua data a ua2 :
  validate_payload ua data = Ret (Valid a) →
  validate_payload ua2 data = check_sequential ua2 a.
Proof.
  unfold validate_payload.
  destruct (data !! "type") as [v_type|]; [|discriminate].
  destruct (data !! "amount") as [v_amount|]; [|discriminate].
  destruct (data !! "user_id") as [v_user_id|]; [|discriminate].
  destruct (data !! "time") as [v_time|]; [|discriminate].
  destruct (as_kind v_type) as [k|]; [|discriminate].
  unfold check_amount.
  destruct (as_amount v_amount) as [amt|]; [|discriminate].
  destruct (float_of_amount amt) as [f|e]; [|by destruct e].
  destruct (f <? 0)%float; [discriminate|].
  unfold check_integers.
  destruct (as_int v_user_id) as [u|]; [|discriminate].
  destruct (as_int v_time) as [t|]; [|discriminate].
  intros H. by apply check_sequential_Valid in H as [-> _].
Qed.

(** X1. When the payload lacks some of the keys [type], [amount],
    [user_id] and [time], the handler answers 400 with the message that
    names the first absent one in that order, and keeps the dictionary. *)
Theorem missing_field_answer ua data i field :
  list_find (λ f, data !! f = None) required_fields = Some (i, field) →
  event ua data = (ua, BadRequest (msg_missing field)).
Proof.
  intros H. apply event_Invalid. by eapply validate_payload_missing.
Qed.

Lemma missing_field_answer_witness :
  event ∅ (delete "time" (delete "amount" (deposit_of (JInt 5) 1 1)))
  = (∅, BadRequest (msg_missing "amount")).
Proof.
  apply (missing_field_answer ∅ _ 1%nat "amount").
  vm_compute. reflexivity.
Defined.

(** X2. With the four keys there, a type that is not the string
    ["deposit"] or ["withdraw"] is answered with the message for the type,
    whatever the three other entries are, also an amount on which [float]
    would raise. *)
Theorem invalid_type_answer ua data v_type v_amount v_user_id v_time :
  data !! "type" = Some v_type →
  data !! "amount" = Some v_amount →
  data !! "user_id" = Some v_user_id →
  data !! "time" = Some v_time →
  v_type ≠ JStr "deposit" → v_type ≠ JStr "withdraw" →
  event ua data = (ua, BadRequest msg_type).
Proof.
  intros H1 H2 H3 H4 Hd Hw. apply event_Invalid.
  rewrite (validate_payload_present _ _ _ _ _ _ H1 H2 H3 H4).
  by rewrite as_kind_None.
Qed.

Lemma invalid_type_answer_witness :
  event ∅ (payload (JStr "Deposit") JNull (JStr "u") (JFloat 1))
  = (∅, BadRequest msg_type).
Proof.
  apply (invalid_type_answer ∅ _ (JStr "Deposit") JNull (JStr "u") (JFloat 1));
    first [ by vm_compute | intros [=] ].
Defined.

(** X3. [validate_payload] accepts a payload, reading the action [a] from
    it, exactly when the four entries are the ones of [a] (a type among the
    two strings, an amount [float] converts, [user_id] and [time] instances
    of [int]), the amount as a float is not below zero, and, when the user
    has a stored list, that list has a last action whose time is strictly
    below the new time. *)
Theorem validate_payload_accepts ua data a :
  validate_payload ua data = Ret (Valid a) ↔
    data !! "type" = Some (json_of_kind (act_type a)) ∧
    data !! "amount" = Some (json_of_amount (act_amount a)) ∧
    data !! "user_id" = Some (json_of_int (act_user_id a)) ∧
    data !! "time" = Some (json_of_int (act_time a)) ∧
    (∃ f, float_of_amount (act_amount a) = Ret f ∧ (f <? 0)%float = false) ∧
    ∀ actions, ua !! int_val (act_user_id a) = Some actions →
      ∃ last_action,
        last actions = Some last_action ∧ time last_action < time a.
Proof.
  split; [apply validate_payload_Valid|].
  intros (Hk & Ham & Hu & Ht & (f & Hf & Hneg) & Hseq).
  unfold validate_payload. rewrite Hk, Ham, Hu, Ht, as_kind_json_of_kind.
  unfold check_amount. rewrite as_amount_json_of_amount, Hf, Hneg.
  unfold check_integers. rewrite !as_int_json_of_int.
  replace {| act_type := act_type a; act_amount := act_amount a;
             act_user_id := act_user_id a; act_time := act_time a |}
    with a by (by destruct a).
  unfold check_sequential.
  destruct (ua !! int_val (act_user_id a)) as [actions|]; [|reflexivity].
  destruct (Hseq actions eq_refl) as (l & -> & Hlt).
  by destruct (Z.leb_spec (time a) (time l)); [lia|].
Qed.

(** X4. With the four keys there and a valid type, an amount that [float]
    converts to a number below zero is answered with the message for a
    negative amount, before [user_id] and [time] are looked at. *)
Theorem negative_amount_answer ua data k v_amount v_user_id v_time f :
  data !! "type" = Some (json_of_kind k) →
  data !! "amount" = Some v_amount →
  data !! "user_id" = Some v_user_id →
  data !! "time" = Some v_time →
  py_float v_amount = Ret f → (f <? 0)%float = true →
  event ua data = (ua, BadRequest msg_negative).
Proof.
  intros H1 H2 H3 H4 Hf Hneg. apply event_Invalid.
  rewrite (validate_payload_present _ _ _ _ _ _ H1 H2 H3 H4).
  rewrite as_kind_json_of_kind. by eapply check_amount_negative.
Qed.

Lemma negative_amount_answer_witness :
  event ∅ (payload (JStr "withdraw") (JStr "-2.5") JNull JNull)
  = (∅, BadRequest msg_negative).
Proof.
  apply (negative_amount_answer ∅ _ Withdraw (JStr "-2.5") JNull JNull
           (-2.5)%float); by vm_compute.
Defined.

(** X5. With the four keys there and a valid type, an amount that is a
    string [float] cannot read is answered with the message for an invalid
    amount, before [user_id] and [time] are looked at. *)
Theorem unreadable_amount_answer ua data k s v_user_id v_time :
  data !! "type" = Some (json_of_kind k) →
  data !! "amount" = Some (JStr s) →
  data !! "user_id" = Some v_user_id →
  data !! "time" = Some v_time →
  PyFloat.of_string s = None →
  event ua data = (ua, BadRequest msg_amount).
Proof.
  intros H1 H2 H3 H4 Hs. apply event_Invalid.
  rewrite (validate_payload_present _ _ _ _ _ _ H1 H2 H3 H4).
  rewrite as_kind_json_of_kind. apply check_amount_unreadable.
  unfold py_float. simpl. by rewrite Hs.
Qed.

Lemma unreadable_amount_answer_witness :
  event ∅ (payload (JStr "deposit") (JStr "1,5") JNull JNull)
  = (∅, BadRequest msg_amount).
Proof.
  apply (unreadable_amount_answer ∅ _ Deposit "1,5" JNull JNull);
    by vm_compute.
Defined.

(** X6. With a valid type and an amount that converts to a float not below
    zero, a [user_id] that is not an instance of [int] (a float such as
    [1.0], a string, [null], a list or an object) is answered with the
    message for the user identifier, whatever [time] is. *)
Theorem user_id_type_answer ua data k v_amount v_user_id v_time f :
  data !! "type" = Some (json_of_kind k) →
  data !! "amount" = Some v_amount →
  data !! "user_id" = Some v_user_id →
  data !! "time" = Some v_time →
  py_float v_amount = Ret f → (f <? 0)%float = false →
  (∀ n, v_user_id ≠ JInt n) → (∀ b, v_user_id ≠ JBool b) →
  event ua data = (ua, BadRequest msg_user_id).
Proof.
  intros H1 H2 H3 H4 Hf Hneg Hn Hb. apply event_Invalid.
  rewrite (validate_payload_present _ _ _ _ _ _ H1 H2 H3 H4).
  rewrite as_kind_json_of_kind.
  destruct (check_amount_accepted ua k v_amount v_user_id v_time f Hf Hneg)
    as (amt & _ & ->).
  destruct v_user_id; simpl; try reflexivity.
  - by destruct (Hb b).
  - by destruct (Hn n).
Qed.

Lemma user_id_type_answer_witness :
  event ∅ (payload (JStr "deposit") (JInt 5) (JFloat 1) (JStr "now"))
  = (∅, BadRequest msg_user_id).
Proof.
  apply (user_id_type_answer ∅ _ Deposit (JInt 5) (JFloat 1) (JStr "now")
           5%float); first [ by vm_compute | intros ? [=] ].
Defined.

(** X7. With a valid type, an amount that converts to a float not below
    zero and a [user_id] that is an instance of [int], a [time] that is not
    an instance of [int] is answered with the message for the time. *)
Theorem time_type_answer ua data k v_amount user v_time f :
  data !! "type" = Some (json_of_kind k) →
  data !! "amount" = Some v_amount →
  data !! "user_id" = Some (json_of_int user) →
  data !! "time" = Some v_time →
  py_float v_amount = Ret f → (f <? 0)%float = false →
  (∀ n, v_time ≠ JInt n) → (∀ b, v_time ≠ JBool b) →
  event ua data = (ua, BadRequest msg_time).
Proof.
  intros H1 H2 H3 H4 Hf Hneg Hn Hb. apply event_Invalid.
  rewrite (validate_payload_present _ _ _ _ _ _ H1 H2 H3 H4).
  rewrite as_kind_json_of_kind.
  destruct (check_amount_accepted ua k v_amount (json_of_int user) v_time f
              Hf Hneg) as (amt & _ & ->).
  rewrite as_int_json_of_int.
  destruct v_time; simpl; try reflexivity.
  - by destruct (Hb b).
  - by destruct (Hn n).
Qed.

Lemma time_type_answer_witness :
  event ∅ (payload (JStr "deposit") (JInt 5) (JInt 1) (JStr "12"))
  = (∅, BadRequest msg_time).
Proof.
  apply (time_type_answer ∅ _ Deposit (JInt 5) (PInt 1) (JStr "12")
           5%float); first [ by vm_compute | intros ? [=] ].
Defined.

(** X8. A payload that is well formed (accepted on the empty dictionary)
    is refused with the message for the order of the times as soon as its
    user has a stored list whose last action is not earlier than it. *)
Theorem late_time_answer ua data a actions last_action :
  validate_payload ∅ data = Ret (Valid a) →
  ua !! int_val (act_user_id a) = Some actions →
  last actions = Some last_action →
  time a <= time last_action →
  event ua data = (ua, BadRequest msg_sequential).
Proof.
  intros Hv Hu Hl Hle. apply event_Invalid.
  rewrite (validate_payload_shape _ _ _ ua Hv).
  by eapply check_sequential_late.
Qed.

Lemma late_time_answer_witness :
  event (submit_all ∅ [deposit_of (JInt 5) 1 10; withdraw_of (JInt 5) 1 20])
    (deposit_of (JInt 7) 1 15)
  = (submit_all ∅ [deposit_of (JInt 5) 1 10; withdraw_of (JInt 5) 1 20],
     BadRequest msg_sequential).
Proof.
  apply (late_time_answer _ _ (stored Deposit (AInt 7) 1 15)
           [stored Deposit (AInt 5) 1 10; stored Withdraw (AInt 5) 1 20]
           (stored Withdraw (AInt 5) 1 20)); by vm_compute.
Defined.

(** X9. Whether a payload is refused for its entries does not depend on
    what is stored: a refusal with any message other than the one for the
    order of the times is the same on every dictionary. *)
Theorem shape_refusal_any_dictionary ua ua2 data msg :
  validate_payload ua data = Ret (Invalid msg) →
  msg ≠ msg_sequential →
  event ua2 data = (ua2, BadRequest msg).
Proof.
  intros Hv Hmsg. apply event_Invalid. revert Hv.
  unfold validate_payload.
  destruct (data !! "type") as [v_type|]; [|done].
  destruct (data !! "amount") as [v_amount|]; [|done].
  destruct (data !! "user_id") as [v_user_id|]; [|done].
  destruct (data !! "time") as [v_time|]; [|done].
  destruct (as_kind v_type) as [k|]; [|done].
  unfold check_amount.
  destruct (as_amount v_amount) as [amt|]; [|done].
  destruct (float_of_amount amt) as [f|e]; [|by destruct e].
  destruct (f <? 0)%float; [done|].
  unfold check_integers.
  destruct (as_int v_user_id) as [u|]; [|done].
  destruct (as_int v_time) as [t|]; [|done].
  unfold check_sequential. simpl.
  destruct (ua !! int_val u) as [actions|]; [|discriminate].
  destruct (last actions) as [l|]; [|discriminate].
  destruct (_ <=? _); [|discriminate].
  intros [= <-]. by destruct Hmsg.
Qed.

Lemma shape_refusal_any_dictionary_witness :
  event (submit_all ∅ [deposit_of (JInt 5) 1 10])
    (deposit_of (JInt (-3)) 1 20)
  = (submit_all ∅ [deposit_of (JInt 5) 1 10], BadRequest msg_negative).
Proof.
  apply (shape_refusal_any_dictionary ∅ _ (deposit_of (JInt (-3)) 1 20)
           msg_negative); first [ by vm_compute | intros [=] ].
Defined.

(** * Further properties of [event] *)

(** X10. A payload that was accepted is refused when it is sent again
    right away, with the message for the order of the times, and the
    second submission stores nothing. *)
Theorem resubmission_refused ua data a :
  validate_payload ua data = Ret (Valid a) →
  event (fst (event ua data)) data
  = (fst (event ua data), BadRequest msg_sequential).
Proof.
  intros Hv. apply event_Invalid.
  rewrite (validate_payload_shape _ _ _ (fst (event ua data)) Hv).
  rewrite (event_Valid _ _ _ Hv).
  apply check_sequential_late
    with (actions := history ua (int_val (act_user_id a)) ++ [a])
         (last_action := a).
  - unfold append_action, history. by rewrite lookup_insert_eq.
  - apply last_snoc.
  - lia.
Qed.

Lemma resubmission_refused_witness :
  event (fst (event ∅ (withdraw_of (JInt 150) 1 5)))
    (withdraw_of (JInt 150) 1 5)
  = (fst (event ∅ (withdraw_of (JInt 150) 1 5)), BadRequest msg_sequential).
Proof.
  apply (resubmission_refused ∅ (withdraw_of (JInt 150) 1 5)
           (stored Withdraw (AInt 150) 1 5)).
  by vm_compute.
Defined.

(** X11. One call of the handler changes the dictionary at one key at
    most, and only by putting the accepted action at the end of that
    user's list; every other key keeps its list, and a call that does not
    accept the payload changes nothing. *)
Theorem event_appends_one ua data user :
  fst (event ua data) !! user = ua !! user ∨
  ∃ a, validate_payload ua data = Ret (Valid a) ∧
       user = int_val (act_user_id a) ∧
       fst (event ua data) !! user = Some (history ua user ++ [a]).
Proof.
  destruct (validate_payload ua data) as [[a|msg]|e] eqn:Hv.
  - rewrite (event_Valid _ _ _ Hv). unfold append_action.
    destruct (decide (int_val (act_user_id a) = user)) as [<-|Hne].
    + right. exists a. by rewrite lookup_insert_eq.
    + left. by rewrite lookup_insert_ne.
  - left. by rewrite event_Invalid with (msg := msg).
  - left. rewrite event_rejected; [reflexivity|]. intros a. by rewrite Hv.
Qed.

Lemma event_history_prefix ua data user :
  history ua user `prefix_of` history (fst (event ua data)) user.
Proof.
  destruct (validate_payload ua data) as [[a|msg]|e] eqn:Hv.
  - rewrite (event_Valid _ _ _ Hv).
    destruct (decide (user = int_val (act_user_id a))) as [->|Hne].
    + rewrite history_append_action. by apply prefix_app_r.
    + by rewrite history_append_action_ne.
  - by rewrite event_Invalid with (msg := msg).
  - rewrite event_rejected; [reflexivity|]. intros a. by rewrite Hv.
Qed.

(** X12. Stored lists only grow at the end: whatever payloads are handled,
    the list a user had before is a prefix of the list the user has
    after; no stored action is dropped, changed or moved. *)
Theorem history_only_grows ua payloads user :
  history ua user `prefix_of` history (submit_all ua payloads) user.
Proof.
  revert ua. induction payloads as [|data payloads IH]; intros ua.
  - reflexivity.
  - etrans; [apply (event_history_prefix ua data)|]. apply IH.
Qed.

(** X13. The key of the dictionary is the integer value of [user_id]: a
    payload whose [user_id] is the boolean [true] (or [false]) is stored
    in the list of user 1 (or 0), and is checked against the last time of
    that list. *)
Theorem boolean_user_id_key ua data a b :
  data !! "user_id" = Some (JBool b) →
  validate_payload ua data = Ret (Valid a) →
  history (fst (event ua data)) (Z.b2z b) = history ua (Z.b2z b) ++ [a] ∧
  ∀ last_action, last (history ua (Z.b2z b)) = Some last_action →
    time last_action < time a.
Proof.
  intros Hb Hv.
  pose proof (validate_payload_Valid _ _ _ Hv) as (_ & _ & Hu & _ & _ & Hseq).
  rewrite Hb in Hu.
  assert (int_val (act_user_id a) = Z.b2z b) as Hkey.
  { destruct (act_user_id a) as [n|b']; simpl in Hu;
      [discriminate | by injection Hu as ->]. }
  rewrite (event_Valid _ _ _ Hv), <- Hkey. split.
  - apply history_append_action.
  - unfold history. intros l Hl.
    destruct (ua !! int_val (act_user_id a)) as [actions|] eqn:Hlook;
      [|discriminate].
    destruct (Hseq actions eq_refl) as (l' & Hl' & Hlt).
    simpl in Hl. congruence.
Qed.

Lemma boolean_user_id_key_witness :
  let ua := submit_all ∅ [deposit_of (JInt 5) 1 10] in
  let data := payload (JStr "deposit") (JInt 6) (JBool true) (JInt 11) in
  let a := {| act_type := Deposit; act_amount := AInt 6;
              act_user_id := PBool true; act_time := PInt 11 |} in
  history (fst (event ua data)) 1 = history ua 1 ++ [a] ∧
  ∀ last_action, last (history ua 1) = Some last_action →
    time last_action < time a.
Proof.
  apply (boolean_user_id_key
           (submit_all ∅ [deposit_of (JInt 5) 1 10])
           (payload (JStr "deposit") (JInt 6) (JBool true) (JInt 11))
           {| act_type := Deposit; act_amount := AInt 6;
              act_user_id := PBool true; act_time := PInt 11 |} true);
    by vm_compute.
Defined.

(** ** The codes of an accepted payload *)

Lemma accepted_code_300 ua data a ua' r :
  validate_payload ua data = Ret (Valid a) →
  event ua data = (ua', Alert r) →
  300 ∈ alert_codes r ↔
    rule_300 (history ua (int_val (act_user_id a)) ++ [a]) = Ret [300].
Proof.
  intros Hv Hev.
  destruct (event_Alert _ _ _ _ _ Hv Hev)
    as (_ & c1100 & c300 & c123 & H1 & H3 & H4 & -> & _).
  pose proof (rule_1100_Ret _ _ H1) as [Hc1 _].
  pose proof (rule_30_cases (history ua (int_val (act_user_id a)) ++ [a]))
    as [Hc2 _].
  pose proof (rule_300_Ret _ _ H3) as Hc3.
  apply rule_123_Ret in H4 as (amounts & _ & Hc4).
  assert (c123 = [123] ∨ c123 = []) as Hc4'
    by (rewrite Hc4; destruct (200 <? py_sum amounts)%float; auto).
  destruct (codes_in_order _ _ _ _ Hc1 Hc2 Hc3 Hc4') as (_ & _ & -> & _).
  rewrite H3. split; congruence.
Qed.

Lemma rule_300_withdrawal actions a :
  act_type a = Withdraw → rule_300 (actions ++ [a]) = rule_300 actions.
Proof.
  intros Hw. unfold rule_300. rewrite filter_app.
  rewrite (filter_cons_False is_deposit a []).
  - by rewrite filter_nil, app_nil_r.
  - unfold is_deposit. rewrite Hw. discriminate.
Qed.

(** X14. Rule 300 looks at deposits only, so a withdrawal repeats the
    verdict of the event before it: when a user's event was answered with
    the codes and the next accepted event of that user is a withdrawal
    that is answered too, 300 is in the second answer exactly when it was
    in the first. *)
Theorem withdrawal_repeats_300 ua0 data0 a0 ua r0 data a ua' r :
  validate_payload ua0 data0 = Ret (Valid a0) →
  event ua0 data0 = (ua, Alert r0) →
  validate_payload ua data = Ret (Valid a) →
  event ua data = (ua', Alert r) →
  int_val (act_user_id a) = int_val (act_user_id a0) →
  act_type a = Withdraw →
  300 ∈ alert_codes r ↔ 300 ∈ alert_codes r0.
Proof.
  intros Hv0 Hev0 Hv Hev Hu Hw.
  rewrite (accepted_code_300 _ _ _ _ _ Hv Hev).
  rewrite (accepted_code_300 _ _ _ _ _ Hv0 Hev0).
  rewrite (rule_300_withdrawal _ _ Hw), Hu.
  by rewrite <- (accepted_history _ _ _ _ _ Hv0 Hev0).
Qed.

Lemma withdrawal_repeats_300_witness :
  300 ∈ [300] ↔ 300 ∈ [300].
Proof.
  apply (withdrawal_repeats_300
           (submit_all ∅ [deposit_of (JInt 1) 1 1; deposit_of (JInt 2) 1 2])
           (deposit_of (JInt 3) 1 3) (stored Deposit (AInt 3) 1 3)
           (submit_all ∅ [deposit_of (JInt 1) 1 1; deposit_of (JInt 2) 1 2;
                          deposit_of (JInt 3) 1 3])
           {| alert := true; alert_codes := [300]; user_id := JInt 1 |}
           (withdraw_of (JInt 1) 1 4) (stored Withdraw (AInt 1) 1 4)
           (submit_all ∅ [deposit_of (JInt 1) 1 1; deposit_of (JInt 2) 1 2;
                          deposit_of (JInt 3) 1 3; withdraw_of (JInt 1) 1 4])
           {| alert := true; alert_codes := [300]; user_id := JInt 1 |});
    by vm_compute.
Defined.

(** X15. When the last three deposits of the user's list, the new action
    included, carry amounts that are numbers (JSON integers, booleans or
    floats), 300 is in the answer exactly when each of them is above the
    one before, by their exact values; equal amounts do not fire. *)
Theorem increasing_numbers_alert ua data a ua' r earlier d1 d2 d3 x1 x2 x3 :
  validate_payload ua data = Ret (Valid a) →
  event ua data = (ua', Alert r) →
  filter is_deposit (history ua' (int_val (act_user_id a)))
  = earlier ++ [d1; d2; d3] →
  as_number (act_amount d1) = Some x1 →
  as_number (act_amount d2) = Some x2 →
  as_number (act_amount d3) = Some x3 →
  300 ∈ alert_codes r ↔ number_gt x3 x2 = true ∧ number_gt x2 x1 = true.
Proof.
  intros Hv Hev Hdep H1 H2 H3.
  rewrite (accepted_code_300 _ _ _ _ _ Hv Hev).
  rewrite (accepted_history _ _ _ _ _ Hv Hev) in Hdep.
  rewrite (rule_300_numbers _ _ _ _ _ _ _ _ Hdep H1 H2 H3).
  destruct (number_gt x3 x2), (number_gt x2 x1); simpl;
    split; first [ done | intros [? ?]; done | discriminate ].
Qed.

Lemma increasing_numbers_alert_witness :
  300 ∈ [300] ↔
    number_gt (NFloat 20.5) (NInt 20) = true ∧
    number_gt (NInt 20) (NInt 1) = true.
Proof.
  apply (increasing_numbers_alert
           (submit_all ∅ [deposit_of (JInt 9) 1 1; deposit_of (JBool true) 1 2;
                          withdraw_of (JInt 9) 1 3; deposit_of (JInt 20) 1 4])
           (deposit_of (JFloat 20.5) 1 5) (stored Deposit (AFloat 20.5) 1 5)
           (submit_all ∅ [deposit_of (JInt 9) 1 1; deposit_of (JBool true) 1 2;
                          withdraw_of (JInt 9) 1 3; deposit_of (JInt 20) 1 4;
                          deposit_of (JFloat 20.5) 1 5])
           {| alert := true; alert_codes := [300]; user_id := JInt 1 |}
           [stored Deposit (AInt 9) 1 1]
           (stored Deposit (ABool true) 1 2) (stored Deposit (AInt 20) 1 4)
           (stored Deposit (AFloat 20.5) 1 5));
    by vm_compute.
Defined.

(** X16. A deposit is never answered with 1100 or with 30: both need the
    new action to be a withdrawal. *)
Theorem deposit_answer_excludes ua data a ua' r :
  validate_payload ua data = Ret (Valid a) →
  event ua data = (ua', Alert r) →
  act_type a = Deposit →
  (1100 ∉ alert_codes r) ∧ (30 ∉ alert_codes r).
Proof.
  intros Hv Hev Hd.
  destruct (accepted_codes _ _ _ _ _ Hv Hev) as (H1100 & H30 & _).
  rewrite (accepted_history _ _ _ _ _ Hv Hev) in H30. split.
  - rewrite H1100. intros [Hw _]. congruence.
  - rewrite H30. intros (earlier & w1 & w2 & w3 & Heq & _ & _ & Hw3).
    change [w1; w2; w3] with ([w1; w2] ++ [w3]) in Heq.
    rewrite app_assoc in Heq.
    apply app_inj_2 in Heq as [_ [= ->]]; [|reflexivity]. congruence.
Qed.

Lemma deposit_answer_excludes_witness :
  (1100 ∉ [123]) ∧ (30 ∉ [123]).
Proof.
  apply (deposit_answer_excludes
           (submit_all ∅ [withdraw_of (JInt 5) 1 1; withdraw_of (JInt 5) 1 2])
           (deposit_of (JInt 500) 1 3) (stored Deposit (AInt 500) 1 3)
           (submit_all ∅ [withdraw_of (JInt 5) 1 1; withdraw_of (JInt 5) 1 2;
                          deposit_of (JInt 500) 1 3])
           {| alert := true; alert_codes := [123]; user_id := JInt 1 |});
    by vm_compute.
Defined.

(** X17. With fewer than three actions in the user's list, the new one
    included, 30 is not in the answer, and with fewer than three deposits
    300 is not; the first two events of a user get neither. *)
Theorem short_history_excludes ua data a ua' r :
  validate_payload ua data = Ret (Valid a) →
  event ua data = (ua', Alert r) →
  ((length (history ua' (int_val (act_user_id a))) < 3)%nat →
   30 ∉ alert_codes r) ∧
  ((length (filter is_deposit (history ua' (int_val (act_user_id a)))) < 3)%nat
   → 300 ∉ alert_codes r).
Proof.
  intros Hv Hev.
  destruct (accepted_codes _ _ _ _ _ Hv Hev) as (_ & H30 & _).
  pose proof (accepted_code_300 _ _ _ _ _ Hv Hev) as H300.
  rewrite <- (accepted_history _ _ _ _ _ Hv Hev) in H300. split.
  - intros Hlen. rewrite H30.
    intros (earlier & w1 & w2 & w3 & Heq & _).
    rewrite Heq, length_app in Hlen. simpl in Hlen. lia.
  - intros Hlen. rewrite H300. unfold rule_300.
    assert (length (rev (filter is_deposit
                           (history ua' (int_val (act_user_id a))))) < 3)%nat
      as Hrev by (by rewrite length_rev).
    destruct (rev _) as [|d1 [|d2 [|d3 ?]]]; try discriminate.
    simpl in Hrev. lia.
Qed.

Lemma short_history_excludes_witness :
  (30 ∉ [1100]) ∧ (300 ∉ [1100]).
Proof.
  destruct (short_history_excludes
              (submit_all ∅ [withdraw_of (JInt 500) 1 1])
              (withdraw_of (JInt 500) 1 2) (stored Withdraw (AInt 500) 1 2)
              (submit_all ∅ [withdraw_of (JInt 500) 1 1;
                             withdraw_of (JInt 500) 1 2])
              {| alert := true; alert_codes := [1100]; user_id := JInt 1 |})
    as [H30 H300]; [by vm_compute ..|].
  split; [apply H30 | apply H300]; vm_compute; lia.
Defined.

(** ** The window of rule 123 *)

Lemma increasing_times_le actions i j x y :
  increasing_times actions → (i <= j)%nat →
  actions !! i = Some x → actions !! j = Some y → time x <= time y.
Proof.
  intros Hinc Hij Hx. revert y. induction Hij as [|j Hij IH]; intros y Hy.
  - assert (x = y) as -> by congruence. lia.
  - destruct (lookup_lt_is_Some_2 actions j) as [z Hz].
    { apply lookup_lt_Some in Hy. lia. }
    specialize (IH z Hz). pose proof (Hinc j z y Hz Hy). lia.
Qed.

Lemma increasing_times_last actions last_action d :
  increasing_times actions → last actions = Some last_action →
  d ∈ actions → time d <= time last_action.
Proof.
  intros Hinc Hl Hd. apply list_elem_of_lookup in Hd as [i Hi].
  rewrite last_lookup in Hl.
  apply (increasing_times_le actions i (pred (length actions))); try done.
  apply lookup_lt_Some in Hi. lia.
Qed.

Lemma filter_none {A} (P : A → Prop) `{∀ x, Decision (P x)} (l : list A) :
  (∀ x, x ∈ l → ¬ P x) → filter P l = [].
Proof.
  induction l as [|x l IH]; intros Hl; [reflexivity|].
  rewrite filter_cons_False by (apply Hl; left).
  apply IH. intros y Hy. apply Hl. by right.
Qed.

Lemma window_of_new_action a :
  filter (in_window (time a)) [a] = filter is_deposit [a].
Proof.
  destruct (decide (is_deposit a)) as [Hd|Hd].
  - rewrite !filter_cons_True; [reflexivity | exact Hd |].
    split; [exact Hd | lia].
  - rewrite !filter_cons_False; [reflexivity | exact Hd |].
    by intros [? _].
Qed.

(** X18. After a pause of more than 30 time units since the user's last
    stored action (or for a user with no stored action), the window of
    rule 123 holds the new action alone, when it is a deposit, and nothing
    otherwise: a withdrawal is not answered with 123, and a deposit is
    exactly when its own amount, added to zero, is above 200. *)
Theorem quiet_period_window ua data a ua' r :
  reachable ua →
  validate_payload ua data = Ret (Valid a) →
  event ua data = (ua', Alert r) →
  (∀ last_action,
     last (history ua (int_val (act_user_id a))) = Some last_action →
     30 < time a - time last_action) →
  filter (in_window (time a)) (history ua' (int_val (act_user_id a)))
  = filter is_deposit [a] ∧
  (123 ∈ alert_codes r ↔
     act_type a = Deposit ∧
     ∃ f, float_of_amount (act_amount a) = Ret f ∧
          (200 <? py_sum [f])%float = true).
Proof.
  intros Hreach Hv Hev Hgap.
  assert (filter (in_window (time a)) (history ua' (int_val (act_user_id a)))
          = filter is_deposit [a]) as Hwin.
  { rewrite (accepted_history _ _ _ _ _ Hv Hev), filter_app.
    rewrite window_of_new_action, filter_none; [reflexivity|].
    intros d Hd [_ Hin]. unfold history in Hd, Hgap.
    destruct (ua !! int_val (act_user_id a)) as [actions|] eqn:Hu;
      simpl in Hd, Hgap; [|by apply elem_of_nil in Hd].
    destruct (reachable_ordered _ Hreach _ _ Hu) as [Hne Hinc].
    destruct (last actions) as [l|] eqn:Hl;
      [|by apply last_None in Hl].
    pose proof (increasing_times_last _ _ _ Hinc Hl Hd).
    pose proof (Hgap l eq_refl). lia. }
  split; [exact Hwin|].
  destruct (accepted_codes _ _ _ _ _ Hv Hev)
    as (_ & _ & (amounts & Ham & ->) & _).
  rewrite Hwin in Ham. unfold amounts_of in Ham.
  destruct (decide (is_deposit a)) as [Hd|Hd].
  - rewrite filter_cons_True in Ham by exact Hd.
    inversion Ham as [|? f ? fs Hf Hfs]; subst. inversion Hfs; subst.
    split.
    + intros Hgt. split; [exact Hd | eauto].
    + intros (_ & f' & Hf' & Hgt). congruence.
  - rewrite filter_cons_False in Ham by exact Hd. inversion Ham; subst.
    split; [by vm_compute | by intros [? _]].
Qed.

Lemma quiet_period_window_witness :
  let ua := submit_all ∅ [deposit_of (JInt 150) 1 0] in
  let ua' := submit_all ∅ [deposit_of (JInt 150) 1 0;
                           deposit_of (JInt 150) 1 31] in
  let a := stored Deposit (AInt 150) 1 31 in
  filter (in_window (time a)) (history ua' 1) = filter is_deposit [a] ∧
  (123 ∈ [] ↔
     act_type a = Deposit ∧
     ∃ f, float_of_amount (act_amount a) = Ret f ∧
          (200 <? py_sum [f])%float = true).
Proof.
  apply (quiet_period_window
           (submit_all ∅ [deposit_of (JInt 150) 1 0])
           (deposit_of (JInt 150) 1 31) (stored Deposit (AInt 150) 1 31)
           (submit_all ∅ [deposit_of (JInt 150) 1 0;
                          deposit_of (JInt 150) 1 31])
           {| alert := false; alert_codes := []; user_id := JInt 1 |}).
  - apply submit_all_reachable. constructor.
  - by vm_compute.
  - by vm_compute.
  - intros l Hl. vm_compute in Hl. injection Hl as <-. by vm_compute.
Defined.

(** * Exceptions *)

(** X19. In a run from the empty dictionary, an exception that leaves the
    handler is a [TypeError] or an [OverflowError]: a [ValueError] of
    [float] is always caught or cannot happen, and the last action of a
    stored list is always there. *)
Theorem run_uncaught_kinds payloads data ua' e :
  event (submit_all ∅ payloads) data = (ua', Uncaught e) →
  e = TypeError ∨ e = OverflowError.
Proof.
  apply reachable_uncaught, submit_all_reachable. constructor.
Qed.

Lemma run_uncaught_kinds_witness :
  OverflowError = TypeError ∨ OverflowError = OverflowError.
Proof.
  apply (run_uncaught_kinds [deposit_of (JInt 5) 1 1]
           (deposit_of (JInt (10 ^ 400)) 1 2)
           (submit_all ∅ [deposit_of (JInt 5) 1 1]) OverflowError).
  by vm_compute.
Defined.

Lemma py_gt_numbers a b x y :
  as_number a = Some x → as_number b = Some y →
  py_gt a b = Ret (number_gt x y).
Proof.
  intros Ha Hb. unfold py_gt. rewrite Ha, Hb.
  destruct a, b; try reflexivity; discriminate.
Qed.

Lemma rule_300_total actions :
  (∀ d, d ∈ actions → act_type d = Deposit →
        is_Some (as_number (act_amount d))) →
  ∃ c, rule_300 actions = Ret c.
Proof.
  intros Hnum. unfold rule_300.
  assert (∀ d, d ∈ rev (filter is_deposit actions) →
               is_Some (as_number (act_amount d))) as Hrev.
  { intros d Hd. apply list_elem_of_In, in_rev, list_elem_of_In in Hd.
    apply list_elem_of_filter in Hd as [Hdep Hd]. by apply Hnum. }
  destruct (rev (filter is_deposit actions)) as [|d1 [|d2 [|d3 ?]]];
    try (by eexists).
  destruct (Hrev d1) as [x1 H1]; [by left|].
  destruct (Hrev d2) as [x2 H2]; [by right; left|].
  destruct (Hrev d3) as [x3 H3]; [by right; right; left|].
  rewrite (py_gt_numbers _ _ _ _ H1 H2). simpl.
  destruct (number_gt x1 x2); [|by eexists].
  rewrite (py_gt_numbers _ _ _ _ H2 H3). simpl. by eexists.
Qed.

(** X20. In a run from the empty dictionary, an accepted payload is
    answered with the alert codes, and no exception is raised, whenever
    the deposits of the user's list, the new action included, all carry
    amounts that are numbers (JSON integers, booleans or floats). *)
Theorem numbers_are_answered payloads data a :
  validate_payload (submit_all ∅ payloads) data = Ret (Valid a) →
  (∀ d, d ∈ history (submit_all ∅ payloads) (int_val (act_user_id a)) ++ [a]
        → act_type d = Deposit → is_Some (as_number (act_amount d))) →
  ∃ r, snd (event (submit_all ∅ payloads) data) = Alert r.
Proof.
  intros Hv Hnum. set (ua := submit_all ∅ payloads) in *.
  assert (reachable ua) as Hreach
    by (apply submit_all_reachable; constructor).
  pose proof (reachable_convert _ (reachable_event _ data Hreach)) as Hconv.
  rewrite (event_Valid _ _ _ Hv) in Hconv.
  pose proof (validate_payload_Valid _ _ _ Hv)
    as (_ & _ & _ & _ & (f & Hf & _) & _).
  unfold event. rewrite Hv, history_append_action. simpl.
  destruct (rules a _) as [codes|e] eqn:Hr; [by eexists|].
  exfalso. unfold rules in Hr.
  assert (∃ c, rule_1100 a = Ret c) as [c1 H1].
  { unfold rule_1100. destruct (act_type a); [by eexists|].
    rewrite Hf. simpl. by eexists. }
  destruct (rule_300_total _ Hnum) as [c3 H3].
  assert (∃ c, rule_123 a (history ua (int_val (act_user_id a)) ++ [a])
               = Ret c) as [c4 H4].
  { unfold rule_123.
    destruct (mapM_Ret_total
                (λ deposit, float_of_amount (act_amount deposit))
                (filter (in_window (time a))
                   (history ua (int_val (act_user_id a)) ++ [a])))
      as [k ->]; [|simpl; by eexists].
    apply Forall_forall. intros d Hd.
    apply list_elem_of_filter in Hd as [_ Hd].
    apply (Hconv (int_val (act_user_id a))
             (history ua (int_val (act_user_id a)) ++ [a])); [|exact Hd].
    unfold append_action, history. by rewrite lookup_insert_eq. }
  rewrite H1 in Hr. simpl in Hr. rewrite H3 in Hr. simpl in Hr.
  rewrite H4 in Hr. discriminate.
Qed.

Lemma numbers_are_answered_witness :
  ∃ r, snd (event (submit_all ∅ [deposit_of (JInt 1) 1 1;
                                 deposit_of (JFloat 2.5) 1 2])
              (deposit_of (JBool true) 1 3)) = Alert r.
Proof.
  apply (numbers_are_answered
           [deposit_of (JInt 1) 1 1; deposit_of (JFloat 2.5) 1 2]
           (deposit_of (JBool true) 1 3) (stored Deposit (ABool true) 1 3)).
  - by vm_compute.
  - intros d Hd _. vm_compute in Hd.
    repeat (apply elem_of_cons in Hd as [-> | Hd]; [by eexists|]).
    by apply elem_of_nil in Hd.
Defined.

(** * Amounts that are not numbers *)

Lemma add_nan_l (y : float) : (nan + y)%float = nan.
Proof.
  rewrite <- (SF2Prim_Prim2SF (nan + y)), add_spec.
  reflexivity.
Qed.

Lemma add_nan_r (x : float) : (x + nan)%float = nan.
Proof.
  rewrite <- (SF2Prim_Prim2SF (x + nan)), add_spec.
  change (Prim2SF nan) with S754_nan.
  by destruct (Prim2SF x).
Qed.

Lemma fold_add_nan (xs : list float) : fold_left PrimFloat.add xs nan = nan.
Proof.
  induction xs as [|x xs IH]; simpl; [reflexivity|].
  by rewrite add_nan_l.
Qed.

Lemma py_sum_nan (xs : list float) : nan ∈ xs → py_sum xs = nan.
Proof.
  unfold py_sum. generalize 0%float.
  induction xs as [|x xs IH]; intros acc Hin.
  - by apply elem_of_nil in Hin.
  - simpl. apply elem_of_cons in Hin as [<- | Hin].
    + by rewrite add_nan_r, fold_add_nan.
    + by apply IH.
Qed.

(** X21. An amount that [float] converts to NaN (the JSON literal [NaN],
    or a string such as ["nan"]) is not below zero, so the validation lets
    it through; and as long as a deposit with such an amount is in the
    window of rule 123, the sum is NaN and 123 is not in the answer,
    whatever the other deposits of the window are. *)
Theorem nan_deposit_silences_123 ua data a ua' r d :
  validate_payload ua data = Ret (Valid a) →
  event ua data = (ua', Alert r) →
  d ∈ history ua' (int_val (act_user_id a)) →
  act_type d = Deposit →
  time a - time d <= 30 →
  float_of_amount (act_amount d) = Ret nan →
  123 ∉ alert_codes r.
Proof.
  intros Hv Hev Hd Hdep Hwin Hnan.
  destruct (accepted_codes _ _ _ _ _ Hv Hev)
    as (_ & _ & (amounts & Ham & ->) & _).
  assert (nan ∈ amounts) as Hin.
  { assert (d ∈ filter (in_window (time a))
                  (history ua' (int_val (act_user_id a)))) as Hd'
      by (apply list_elem_of_filter; split; [split|]; assumption).
    unfold amounts_of in Ham.
    apply list_elem_of_lookup in Hd' as [i Hi].
    destruct (Forall2_lookup_l _ _ _ _ _ Ham Hi) as (f & Hf & Hdf).
    apply list_elem_of_lookup. exists i. congruence. }
  rewrite (py_sum_nan _ Hin). by vm_compute.
Qed.

Lemma nan_deposit_silences_123_witness :
  123 ∉ [300].
Proof.
  apply (nan_deposit_silences_123
           (submit_all ∅ [deposit_of (JFloat nan) 1 1;
                          deposit_of (JInt 5) 1 2;
                          deposit_of (JInt 500) 1 3])
           (deposit_of (JInt 900) 1 4) (stored Deposit (AInt 900) 1 4)
           (submit_all ∅ [deposit_of (JFloat nan) 1 1;
                          deposit_of (JInt 5) 1 2;
                          deposit_of (JInt 500) 1 3;
                          deposit_of (JInt 900) 1 4])
           {| alert := true; alert_codes := [300]; user_id := JInt 1 |}
           (stored Deposit (AFloat nan) 1 1)); try by vm_compute.
  vm_compute. apply list_elem_of_here.
Defined.

(** * An exception after the action was stored *)

Lemma rule_1100_total a :
  (∃ f, float_of_amount (act_amount a) = Ret f) → ∃ c, rule_1100 a = Ret c.
Proof.
  intros [f Hf]. unfold rule_1100. destruct (act_type a); [by eexists|].
  rewrite Hf. simpl. by eexists.
Qed.

Lemma rule_123_total a actions :
  (∀ d, d ∈ actions → ∃ f, float_of_amount (act_amount d) = Ret f) →
  ∃ c, rule_123 a actions = Ret c.
Proof.
  intros Hall. unfold rule_123.
  destruct (mapM_Ret_total
              (λ deposit, float_of_amount (act_amount deposit))
              (filter (in_window (time a)) actions)) as [k ->].
  - apply Forall_forall. intros d Hd.
    apply list_elem_of_filter in Hd as [_ Hd]. by apply Hall.
  - simpl. by eexists.
Qed.

Lemma accepted_uncaught ua data a e :
  reachable ua →
  validate_payload ua data = Ret (Valid a) →
  snd (event ua data) = Uncaught e →
  e = TypeError ∧
  rule_300 (history ua (int_val (act_user_id a)) ++ [a]) = Raise TypeError.
Proof.
  intros Hreach Hv. unfold event. rewrite Hv, history_append_action. simpl.
  destruct (rules a _) as [codes|e'] eqn:Hr; [discriminate|].
  intros [= ->].
  pose proof (reachable_convert _ (reachable_event _ data Hreach)) as Hconv.
  rewrite (event_Valid _ _ _ Hv) in Hconv.
  assert (∃ f, float_of_amount (act_amount a) = Ret f) as Hf.
  { apply validate_payload_Valid in Hv as (_ & _ & _ & _ & (f & Hf & _) & _).
    eauto. }
  assert (∀ d, d ∈ history ua (int_val (act_user_id a)) ++ [a] →
               ∃ f, float_of_amount (act_amount d) = Ret f) as Hall.
  { intros d Hd.
    apply (Hconv (int_val (act_user_id a))
             (history ua (int_val (act_user_id a)) ++ [a])); [|exact Hd].
    unfold append_action, history. by rewrite lookup_insert_eq. }
  assert (e = TypeError) as ->.
  { eapply rules_Raise; [exact Hf | by apply Forall_forall | exact Hr]. }
  split; [reflexivity|].
  destruct (rule_1100_total a Hf) as [c1 H1].
  destruct (rule_123_total a _ Hall) as [c4 H4].
  unfold rules in Hr. rewrite H1 in Hr. simpl in Hr.
  destruct (rule_300 _) as [c3|e3]; simpl in Hr; [|congruence].
  rewrite H4 in Hr. discriminate.
Qed.

(** X22. In a run from the empty dictionary, when an accepted payload ends
    in an exception, the exception is the [TypeError] of rule 300 comparing
    a number with a string, and the action has been put in the user's list
    all the same. *)
Theorem exception_after_append payloads data a e :
  validate_payload (submit_all ∅ payloads) data = Ret (Valid a) →
  snd (event (submit_all ∅ payloads) data) = Uncaught e →
  e = TypeError ∧
  rule_300 (history (submit_all ∅ payloads) (int_val (act_user_id a)) ++ [a])
  = Raise TypeError ∧
  history (fst (event (submit_all ∅ payloads) data)) (int_val (act_user_id a))
  = history (submit_all ∅ payloads) (int_val (act_user_id a)) ++ [a].
Proof.
  intros Hv Hev.
  destruct (accepted_uncaught _ _ _ _
              (submit_all_reachable _ payloads reachable_empty) Hv Hev)
    as [-> H300].
  split_and!; try done.
  rewrite (event_Valid _ _ _ Hv). apply history_append_action.
Qed.

Lemma exception_after_append_witness :
  let ua := submit_all ∅ [deposit_of (JStr "10") 1 1;
                          deposit_of (JInt 20) 1 2] in
  let a := stored Deposit (AInt 30) 1 3 in
  TypeError = TypeError ∧
  rule_300 (history ua 1 ++ [a]) = Raise TypeError ∧
  history (fst (event ua (deposit_of (JInt 30) 1 3))) 1 = history ua 1 ++ [a].
Proof.
  apply (exception_after_append
           [deposit_of (JStr "10") 1 1; deposit_of (JInt 20) 1 2]
           (deposit_of (JInt 30) 1 3) (stored Deposit (AInt 30) 1 3)
           TypeError); by vm_compute.
Defined.

Lemma submit_all_snoc ua payloads data :
  submit_all ua (payloads ++ [data])
  = fst (event (submit_all ua payloads) data).
Proof. by rewrite submit_all_app. Qed.

(** X23. Once an accepted payload of a user has ended in that exception,
    every withdrawal of the same user that is accepted next ends in it
    too: the deposits that rule 300 compares are still the same. *)
Theorem withdrawal_repeats_exception payloads data0 a0 e data a :
  validate_payload (submit_all ∅ payloads) data0 = Ret (Valid a0) →
  snd (event (submit_all ∅ payloads) data0) = Uncaught e →
  validate_payload (submit_all ∅ (payloads ++ [data0])) data
  = Ret (Valid a) →
  int_val (act_user_id a) = int_val (act_user_id a0) →
  act_type a = Withdraw →
  snd (event (submit_all ∅ (payloads ++ [data0])) data) = Uncaught TypeError.
Proof.
  intros Hv0 Hev0 Hv Hu Hw.
  destruct (accepted_uncaught _ _ _ _
              (submit_all_reachable _ payloads reachable_empty) Hv0 Hev0)
    as [_ H300].
  pose proof (validate_payload_Valid _ _ _ Hv)
    as (_ & _ & _ & _ & (f & Hf & _) & _).
  rewrite submit_all_snoc, (event_Valid _ _ _ Hv0) in Hv |- *.
  unfold event. rewrite Hv, history_append_action. simpl.
  rewrite Hu, history_append_action.
  unfold rules, rule_1100. rewrite Hw, Hf. simpl.
  by rewrite (rule_300_withdrawal _ _ Hw), H300.
Qed.

Lemma withdrawal_repeats_exception_witness :
  snd (event (submit_all ∅ ([deposit_of (JStr "10") 1 1;
                             deposit_of (JInt 20) 1 2]
                            ++ [deposit_of (JInt 30) 1 3]))
         (withdraw_of (JInt 1) 1 4)) = Uncaught TypeError.
Proof.
  apply (withdrawal_repeats_exception
           [deposit_of (JStr "10") 1 1; deposit_of (JInt 20) 1 2]
           (deposit_of (JInt 30) 1 3) (stored Deposit (AInt 30) 1 3)
           TypeError (withdraw_of (JInt 1) 1 4)
           (stored Withdraw (AInt 1) 1 4)); by vm_compute.
Defined.

(** X24. When the last three deposits of the user's list, the new action
    included, carry amounts that are strings, 300 is in the answer exactly
    when each string is above the one before in the order of strings
    (character by character, by code point), whatever numbers they
    spell. *)
Theorem increasing_strings_alert ua data a ua' r earlier d1 d2 d3 s1 s2 s3 :
  validate_payload ua data = Ret (Valid a) →
  event ua data = (ua', Alert r) →
  filter is_deposit (history ua' (int_val (act_user_id a)))
  = earlier ++ [d1; d2; d3] →
  act_amount d1 = AStr s1 → act_amount d2 = AStr s2 →
  act_amount d3 = AStr s3 →
  300 ∈ alert_codes r ↔
    String.compare s3 s2 = Gt ∧ String.compare s2 s1 = Gt.
Proof.
  intros Hv Hev Hdep H1 H2 H3.
  rewrite (accepted_code_300 _ _ _ _ _ Hv Hev).
  rewrite (accepted_history _ _ _ _ _ Hv Hev) in Hdep.
  rewrite (rule_300_strings _ _ _ _ _ _ _ _ Hdep H1 H2 H3).
  unfold string_gt.
  destruct (String.compare s3 s2), (String.compare s2 s1); simpl;
    split; first [ done | intros [? ?]; done | discriminate ].
Qed.

Lemma increasing_strings_alert_witness :
  300 ∈ [300] ↔
    String.compare "9" "80" = Gt ∧ String.compare "80" "700" = Gt.
Proof.
  apply (increasing_strings_alert
           (submit_all ∅ [deposit_of (JStr "700") 1 1;
                          deposit_of (JStr "80") 1 32])
           (deposit_of (JStr "9") 1 64) (stored Deposit (AStr "9") 1 64)
           (submit_all ∅ [deposit_of (JStr "700") 1 1;
                          deposit_of (JStr "80") 1 32;
                          deposit_of (JStr "9") 1 64])
           {| alert := true; alert_codes := [300]; user_id := JInt 1 |}
           [] (stored Deposit (AStr "700") 1 1)
           (stored Deposit (AStr "80") 1 32)
           (stored Deposit (AStr "9") 1 64)); by vm_compute.
Defined.

(** * The answer under any summation *)

Lemma event_with_py_sum ua data : event_with py_sum ua data = event ua data.
Proof. reflexivity. Qed.

Lemma rule_123_with_Ret sum a actions c :
  rule_123_with sum a actions = Ret c →
  ∃ amounts,
    amounts_of (filter (in_window (time a)) actions) amounts ∧
    c = if (200 <? sum amounts)%float then [123] else [].
Proof.
  unfold rule_123_with. intros H.
  apply bind_Ret in H as (amounts & Ham & H). injection H as <-.
  exists amounts. split; [|reflexivity].
  by apply mapM_Ret_Forall2.
Qed.

Lemma rule_300_increase actions c :
  rule_300 actions = Ret c →
  c = [300] ↔ last_deposits_increase actions.
Proof.
  unfold rule_300, last_deposits_increase. intros H.
  assert (∀ earlier e1 e2 e3,
            filter is_deposit actions = earlier ++ [e1; e2; e3] →
            rev (filter is_deposit actions) = e3 :: e2 :: e1 :: rev earlier)
    as Hrev_of by (intros ? ? ? ? ->; by rewrite rev_app_distr).
  destruct (rev (filter is_deposit actions)) as [|d1 [|d2 [|d3 rest]]]
    eqn:Hrev;
    try (simpl in H; injection H as <-; split; [discriminate|];
         intros (earlier & e1 & e2 & e3 & Heq & _);
         apply Hrev_of in Heq; discriminate).
  assert (filter is_deposit actions = rev rest ++ [d3; d2; d1]) as Hsplit.
  { apply (f_equal (@rev action)) in Hrev. rewrite rev_involutive in Hrev.
    rewrite Hrev. simpl. by rewrite <- !app_assoc. }
  split.
  - intros ->. exists (rev rest), d3, d2, d1. split; [exact Hsplit|].
    destruct (py_gt (act_amount d1) (act_amount d2)) as [[]|];
      simpl in H; try discriminate.
    destruct (py_gt (act_amount d2) (act_amount d3)) as [[]|];
      simpl in H; try discriminate.
    done.
  - intros (earlier & e1 & e2 & e3 & Heq & Hgt & Hgt').
    apply Hrev_of in Heq. injection Heq as -> -> -> _.
    rewrite Hgt in H. simpl in H. rewrite Hgt' in H. simpl in H.
    by inversion H.
Qed.

Lemma event_with_Alert sum ua data a ua' r :
  validate_payload ua data = Ret (Valid a) →
  event_with sum ua data = (ua', Alert r) →
  let actions := history ua (int_val (act_user_id a)) ++ [a] in
  history ua' (int_val (act_user_id a)) = actions ∧
  ∃ c1100 c300 c123,
    rule_1100 a = Ret c1100 ∧
    rule_300 actions = Ret c300 ∧
    rule_123_with sum a actions = Ret c123 ∧
    alert_codes r = c1100 ++ rule_30 actions ++ c300 ++ c123.
Proof.
  intros Hv. unfold event_with. rewrite Hv, history_append_action.
  destruct (rules_with sum a _) as [codes|e] eqn:Hr; [|discriminate].
  intros [= <- <-]. split; [apply history_append_action|].
  unfold rules_with in Hr.
  apply bind_Ret in Hr as (c1100 & H1 & Hr).
  apply bind_Ret in Hr as (c300 & H3 & Hr).
  apply bind_Ret in Hr as (c123 & H4 & Hr).
  injection Hr as <-. exists c1100, c300, c123. by simpl.
Qed.

(** When the handler answers, each code is in the answer exactly when the
    condition of its own rule holds, and the codes come in the order of
    the rules. *)
Lemma event_with_codes sum ua data a ua' r :
  validate_payload ua data = Ret (Valid a) →
  event_with sum ua data = (ua', Alert r) →
  let actions := history ua' (int_val (act_user_id a)) in
  (1100 ∈ alert_codes r ↔ large_withdrawal a) ∧
  (30 ∈ alert_codes r ↔ triple_withdrawal actions) ∧
  (300 ∈ alert_codes r ↔ last_deposits_increase actions) ∧
  (∃ amounts,
     amounts_of (filter (in_window (time a)) actions) amounts ∧
     (123 ∈ alert_codes r ↔ (200 <? sum amounts)%float = true)) ∧
  sublist (alert_codes r) [1100; 30; 300; 123].
Proof.
  intros Hv Hev.
  destruct (event_with_Alert _ _ _ _ _ _ Hv Hev)
    as (-> & c1100 & c300 & c123 & H1 & H3 & H4 & ->).
  simpl. set (actions := history ua (int_val (act_user_id a)) ++ [a]) in *.
  pose proof (rule_1100_Ret _ _ H1) as [Hc1 Hlarge].
  pose proof (rule_30_cases actions) as [Hc2 Htriple].
  pose proof (rule_300_Ret _ _ H3) as Hc3.
  pose proof (rule_300_increase _ _ H3) as Hinc.
  apply rule_123_with_Ret in H4 as (amounts & Ham & Hc4).
  assert (c123 = [123] ∨ c123 = []) as Hc4'
    by (rewrite Hc4; destruct (200 <? sum amounts)%float; auto).
  destruct (codes_in_order _ _ _ _ Hc1 Hc2 Hc3 Hc4')
    as (E1 & E2 & E3 & E4 & Hsub).
  split_and!; try assumption.
  - by rewrite E1.
  - by rewrite E2.
  - by rewrite E3.
  - exists amounts. split; [assumption|]. rewrite E4, Hc4.
    destruct (200 <? sum amounts)%float; split; done.
Qed.

(** C2. Whatever summation the interpreter has, code 123 is in the answer
    exactly when the total that [sum] returns is above 200, over the
    amounts, converted by [float] and taken from the oldest on, of the
    deposits of the user's list, the new action included, whose time is at
    most 30 units before the time of the new action.  The new action is
    counted when it is a deposit, and no deposit further back than 30 units
    is.  The total is a float and carries the rounding of the
    additions. *)
Theorem deposit_burst_float_total sum ua data a ua' r :
  validate_payload ua data = Ret (Valid a) →
  event_with sum ua data = (ua', Alert r) →
  let window :=
    filter (in_window (time a)) (history ua' (int_val (act_user_id a))) in
  (∃ amounts,
     amounts_of window amounts ∧
     (123 ∈ alert_codes r ↔ (200 <? sum amounts)%float = true)) ∧
  (act_type a = Deposit → a ∈ window) ∧
  (∀ d, d ∈ window ↔
        d ∈ history ua' (int_val (act_user_id a)) ∧
        act_type d = Deposit ∧ time a - time d <= 30).
Proof.
  intros Hv Hev.
  destruct (event_with_codes _ _ _ _ _ _ Hv Hev) as (_ & _ & _ & H123 & _).
  destruct (event_with_Alert _ _ _ _ _ _ Hv Hev) as (Hh & _).
  simpl. split_and!.
  - exact H123.
  - intros Hdep. apply list_elem_of_filter. split.
    + split; [exact Hdep | lia].
    + rewrite Hh. apply elem_of_app. right. apply list_elem_of_here.
  - intros d. rewrite list_elem_of_filter. unfold in_window, is_deposit.
    tauto.
Qed.

Lemma deposit_burst_float_total_witness :
  let ua' := submit_all ∅ [deposit_of (JInt 100) 1 0;
                           deposit_of (JInt 150) 1 10] in
  let a := stored Deposit (AInt 150) 1 10 in
  let window := filter (in_window (time a)) (history ua' 1) in
  (∃ amounts,
     amounts_of window amounts ∧
     (123 ∈ [123] ↔ (200 <? py_sum amounts)%float = true)) ∧
  (act_type a = Deposit → a ∈ window) ∧
  (∀ d, d ∈ window ↔
        d ∈ history ua' 1 ∧ act_type d = Deposit ∧ time a - time d <= 30).
Proof.
  apply (deposit_burst_float_total py_sum
           (submit_all ∅ [deposit_of (JInt 100) 1 0])
           (deposit_of (JInt 150) 1 10)
           (stored Deposit (AInt 150) 1 10)
           _ {| alert := true; alert_codes := [123]; user_id := JInt 1 |});
    vm_compute; reflexivity.
Defined.

(** The deposits 100.00000000000001 and 100, ten units apart: both are in
    the window and their exact sum is above 200, but the float total is
    200 and 123 is not in the answer. *)
Lemma deposit_burst_exact_sum_fails :
  let f := 0x1.9000000000001p+6%float in
  let ua := submit_all ∅ [deposit_of (JFloat f) 1 0] in
  let data := deposit_of (JInt 100) 1 10 in
  let a := stored Deposit (AInt 100) 1 10 in
  PyFloat.of_string "100.00000000000001" = Some f ∧
  validate_payload ua data = Ret (Valid a) ∧
  ∃ ua' r,
    event ua data = (ua', Alert r) ∧
    ¬ (123 ∈ alert_codes r ↔
       ∃ total,
         exact_total
           (filter (in_window (time a))
              (history ua' (int_val (act_user_id a)))) = Some total ∧
         QArith_base.Qlt (QArith_base.inject_Z 200) total).
Proof.
  cbv zeta. split_and!; try (vm_compute; reflexivity).
  eexists _, _. split; [vm_compute; reflexivity|].
  intros [_ H]. simpl in H.
  assert (123 ∈ @nil Z) as Hin; [|by apply elem_of_nil in Hin].
  apply H. eexists. split; vm_compute; reflexivity.
Qed.

(** The same run under the compensated summation: the correction is half a
    unit in the last place of 200 and the total stays 200, so the answer is
    the same.  On 200, 1e-14 and 1e-14 the two summations part: the plain
    one stays at 200, the compensated one passes it. *)
Lemma deposit_burst_compensated :
  let f := 0x1.9000000000001p+6%float in
  event_with neumaier_sum (submit_all ∅ [deposit_of (JFloat f) 1 0])
    (deposit_of (JInt 100) 1 10)
  = event (submit_all ∅ [deposit_of (JFloat f) 1 0])
      (deposit_of (JInt 100) 1 10) ∧
  PyFloat.of_string "1e-14" = Some 0x1.6849b86a12b9bp-47%float ∧
  (200 <? py_sum [200; 0x1.6849b86a12b9bp-47; 0x1.6849b86a12b9bp-47])%float
  = false ∧
  (200 <? neumaier_sum
            [200; 0x1.6849b86a12b9bp-47; 0x1.6849b86a12b9bp-47])%float
  = true.
Proof. cbv zeta. split_and!; vm_compute; reflexivity. Qed.

(** X25. When the handler answers, under any summation, each code is in
    the answer exactly when the condition of its own rule holds, whatever
    the other rules say: 1100 for a withdrawal above 100, 30 for three
    withdrawals at the end of the user's list, 300 for the last three
    deposits going up in the order of [>], 123 for a float total above 200
    over the window.  The codes that fired come in the order 1100, 30,
    300, 123, and a withdrawal above 100 that follows two stored
    withdrawals is answered with 1100 and then 30 at the head. *)
Theorem alert_codes_exact sum ua data a ua' r :
  validate_payload ua data = Ret (Valid a) →
  event_with sum ua data = (ua', Alert r) →
  let actions := history ua' (int_val (act_user_id a)) in
  (1100 ∈ alert_codes r ↔ large_withdrawal a) ∧
  (30 ∈ alert_codes r ↔ triple_withdrawal actions) ∧
  (300 ∈ alert_codes r ↔ last_deposits_increase actions) ∧
  (∃ amounts,
     amounts_of (filter (in_window (time a)) actions) amounts ∧
     (123 ∈ alert_codes r ↔ (200 <? sum amounts)%float = true)) ∧
  sublist (alert_codes r) [1100; 30; 300; 123] ∧
  (large_withdrawal a →
   (∃ earlier w1 w2,
      history ua (int_val (act_user_id a)) = earlier ++ [w1; w2] ∧
      act_type w1 = Withdraw ∧ act_type w2 = Withdraw) →
   ∃ rest, alert_codes r = 1100 :: 30 :: rest).
Proof.
  intros Hv Hev.
  pose proof (event_with_codes _ _ _ _ _ _ Hv Hev)
    as (H1100 & H30 & H300 & H123 & Hsub).
  split_and!; try assumption.
  intros Hlarge (earlier & w1 & w2 & Hh & Hw1 & Hw2).
  destruct (event_with_Alert _ _ _ _ _ _ Hv Hev)
    as (Hhist & c1100 & c300 & c123 & H1 & _ & _ & Hcodes).
  apply rule_1100_Ret in H1 as [_ Hc1]. apply Hc1 in Hlarge as ->.
  pose proof (rule_30_cases (history ua (int_val (act_user_id a)) ++ [a]))
    as [_ Hc2].
  rewrite Hcodes. replace (rule_30 _) with [30]; [simpl; eauto|].
  symmetry. apply Hc2. exists earlier, w1, w2, a.
  rewrite Hh, <- app_assoc. simpl. split_and!; try done.
  apply Hc1. reflexivity.
Qed.

Lemma alert_codes_exact_witness :
  let ua' := submit_all ∅ [withdraw_of (JInt 10) 1 1; withdraw_of (JInt 10) 1 2;
                           withdraw_of (JInt 200) 1 3] in
  let a := stored Withdraw (AInt 200) 1 3 in
  (1100 ∈ [1100; 30] ↔ large_withdrawal a) ∧
  (30 ∈ [1100; 30] ↔ triple_withdrawal (history ua' 1)) ∧
  (300 ∈ [1100; 30] ↔ last_deposits_increase (history ua' 1)) ∧
  (∃ amounts,
     amounts_of (filter (in_window (time a)) (history ua' 1)) amounts ∧
     (123 ∈ [1100; 30] ↔ (200 <? py_sum amounts)%float = true)) ∧
  sublist [1100; 30] [1100; 30; 300; 123] ∧
  ∃ rest, [1100; 30] = 1100 :: 30 :: rest.
Proof.
  destruct (alert_codes_exact py_sum
              (submit_all ∅ [withdraw_of (JInt 10) 1 1;
                             withdraw_of (JInt 10) 1 2])
              (withdraw_of (JInt 200) 1 3) (stored Withdraw (AInt 200) 1 3)
              (submit_all ∅ [withdraw_of (JInt 10) 1 1;
                             withdraw_of (JInt 10) 1 2;
                             withdraw_of (JInt 200) 1 3])
              {| alert := true; alert_codes := [1100; 30];
                 user_id := JInt 1 |})
    as (H1 & H2 & H3 & H4 & H5 & Hboth); [vm_compute; reflexivity ..|].
  cbv zeta. split_and!; try assumption. apply Hboth.
  - split; [reflexivity|]. exists 200%float. split; vm_compute; reflexivity.
  - exists [], (stored Withdraw (AInt 10) 1 1),
      (stored Withdraw (AInt 10) 1 2).
    split_and!; vm_compute; reflexivity.
Defined.

(** C5. A run on which the combination is lost: after the deposits ["10"],
    20 and 30 and two withdrawals of 10, a withdrawal of 200 is accepted,
    rule 1100 and rule 30 both give their code on it, and yet the handler
    ends in the [TypeError] that rule 300 raises on the stored deposits:
    no list of codes is answered. *)
Theorem combination_lost_to_exception :
  let ua := submit_all ∅ [deposit_of (JStr "10") 1 1; deposit_of (JInt 20) 1 2;
                          deposit_of (JInt 30) 1 3; withdraw_of (JInt 10) 1 4;
                          withdraw_of (JInt 10) 1 5] in
  let data := withdraw_of (JInt 200) 1 6 in
  let a := stored Withdraw (AInt 200) 1 6 in
  history ua 1
  = [stored Deposit (AStr "10") 1 1; stored Deposit (AInt 20) 1 2;
     stored Deposit (AInt 30) 1 3; stored Withdraw (AInt 10) 1 4;
     stored Withdraw (AInt 10) 1 5] ∧
  validate_payload ua data = Ret (Valid a) ∧
  rule_1100 a = Ret [1100] ∧
  rule_30 (history ua 1 ++ [a]) = [30] ∧
  rule_300 (history ua 1 ++ [a]) = Raise TypeError ∧
  snd (event ua data) = Uncaught TypeError.
Proof. cbv zeta. split_and!; vm_compute; reflexivity. Qed.
